(** * cruft: template checkout resolution, context assembly and [create]

    A shallow embedding of [cruft/_commands/create.py] and
    [cruft/_commands/utils/cookiecutter.py].  Python values are modelled by
    their JSON shape, dictionaries by finite maps, exceptions by an error
    monad threaded through an explicit world (file system and standard
    output). *)

From Stdlib Require Import ZArith NArith Ascii String List Lia.
From Stdlib Require Import DecimalString.
From Stdlib Require Import Floats.PrimFloat.
From stdpp Require Import base option list gmap strings fin_maps.

Local Open Scope string_scope.

(** ** Python string primitives *)

Module PyStr.

(** [s.startswith(p)] *)
Fixpoint startswith (s p : string) {struct p} : bool :=
  match p with
  | EmptyString => true
  | String c p' =>
      match s with
      | EmptyString => false
      | String d s' => if Ascii.eqb c d then startswith s' p' else false
      end
  end.

(** [sub in s] on two strings: [sub] occurs as a contiguous run of [s]. *)
Fixpoint str_in (sub s : string) : bool :=
  startswith s sub
  || match s with
     | EmptyString => false
     | String _ s' => str_in sub s'
     end.

(** [s.replace(old, new)] for a non-empty [old]: a single scan from the
    left; at a match [new] is emitted and the scan resumes after the
    match ([skip] counts the characters of the match still to drop). *)
Fixpoint replace_from (old new : string) (skip : nat) (s : string) : string :=
  match s with
  | EmptyString => EmptyString
  | String c s' =>
      match skip with
      | S k => replace_from old new k s'
      | O =>
          if startswith s old
          then new +:+ replace_from old new (String.length old - 1) s'
          else String c (replace_from old new 0 s')
      end
  end.

(** [s.replace("", new)]: [new] before every character and at the end. *)
Fixpoint replace_empty (new s : string) : string :=
  new +:+ match s with
          | EmptyString => EmptyString
          | String c s' => String c (replace_empty new s')
          end.

(** [s.replace(old, new)] *)
Definition replace (s old new : string) : string :=
  match old with
  | EmptyString => replace_empty new s
  | _ => replace_from old new 0 s
  end.

Definition is_space (c : ascii) : bool :=
  let n := nat_of_ascii c in
  (n =? 32)%nat || ((9 <=? n)%nat && (n <=? 13)%nat)
  || ((28 <=? n)%nat && (n <=? 31)%nat).

Fixpoint lstrip (s : string) : string :=
  match s with
  | String c s' => if is_space c then lstrip s' else s
  | EmptyString => EmptyString
  end.

(** [rstrip] drops the trailing white space: a character is kept when it is
    not white space or when the stripped rest is non-empty. *)
Fixpoint rstrip (s : string) : string :=
  match s with
  | EmptyString => EmptyString
  | String c s' =>
      match rstrip s' with
      | EmptyString => if is_space c then EmptyString else String c EmptyString
      | r => String c r
      end
  end.

(** [s.strip()] *)
Definition strip (s : string) : string := rstrip (lstrip s).

(** [sep.join(parts)] *)
Fixpoint join (sep : string) (parts : list string) : string :=
  match parts with
  | [] => EmptyString
  | [p] => p
  | p :: ps => p +:+ sep +:+ join sep ps
  end.

Fixpoint split_from (sep : ascii) (cur : string) (s : string) : list string :=
  match s with
  | EmptyString => [cur]
  | String c s' =>
      if Ascii.eqb c sep then cur :: split_from sep EmptyString s'
      else split_from sep (cur +:+ String c EmptyString) s'
  end.

(** [s.split(sep)] for a one-character separator. *)
Definition split (sep : ascii) (s : string) : list string :=
  split_from sep EmptyString s.

(** Truthiness of a string: non-empty. *)
Definition truthy (s : string) : bool :=
  match s with EmptyString => false | _ => true end.

End PyStr.

(** ** Version numbers of [packaging.version] *)

Module Version.

Definition is_digit (c : ascii) : bool :=
  let n := nat_of_ascii c in (48 <=? n)%nat && (n <=? 57)%nat.

Definition is_numeric_char (c : ascii) : bool :=
  is_digit c || Ascii.eqb c "."%char.

(** [re.sub(r"[^0-9.]", "", s)]: every character that is neither a decimal
    digit nor a dot is deleted. *)
Fixpoint strip_non_numeric (s : string) : string :=
  match s with
  | EmptyString => EmptyString
  | String c s' =>
      if is_numeric_char c then String c (strip_non_numeric s')
      else strip_non_numeric s'
  end.

(** Whether a decimal digit occurs in [s]. *)
Fixpoint has_digit (s : string) : bool :=
  match s with
  | EmptyString => false
  | String c s' => is_digit c || has_digit s'
  end.

Fixpoint all_digits (s : string) : bool :=
  match s with
  | EmptyString => true
  | String c s' => is_digit c && all_digits s'
  end.

(** [int(s)] for a string of decimal digits. *)
Fixpoint int_of_digits (acc : N) (s : string) : N :=
  match s with
  | EmptyString => acc
  | String c s' => int_of_digits (10 * acc + (N_of_ascii c - 48))%N s'
  end.

(** [str(n)] for a non-negative integer. *)
Definition str_of_int (n : N) : string :=
  NilZero.string_of_uint (N.to_uint n).

(** A release-only version: the tuple of its release segments. *)
Definition release := list N.

(** The outcome of [version.parse]: a version, or the text that is none. *)
Inductive parsed : Type :=
  | Release (r : release)
  | Unparseable (raw : string).

(** Modelled from the spec: [packaging.version.parse] is not part of the
    sources.  Its inputs here are over the alphabet [0-9.] (the output of
    [strip_non_numeric]); on that alphabet a PEP 440 version is one or more
    non-empty digit runs separated by single dots, read as the release
    tuple.  Every other input is the spec's "unparseable" candidate, which
    never exceeds the running maximum. *)
Definition parse (s : string) : parsed :=
  let segs := PyStr.split "."%char s in
  if forallb (fun seg => PyStr.truthy seg && all_digits seg) segs
  then Release (map (int_of_digits 0%N) segs)
  else Unparseable s.

(** [str(version)]: the release segments joined by dots. *)
Definition to_str (v : parsed) : string :=
  match v with
  | Release r => PyStr.join "." (map str_of_int r)
  | Unparseable raw => raw
  end.

(** Comparison key: the release with its trailing zeros dropped. *)
Fixpoint key (r : release) : release :=
  match r with
  | [] => []
  | n :: r' =>
      match key r' with
      | [] => if (n =? 0)%N then [] else [n]
      | k => n :: k
      end
  end.

(** Python's ordering of tuples of integers, [a > b]. *)
Fixpoint tuple_gt (a b : list N) : bool :=
  match a, b with
  | [], _ => false
  | _ :: _, [] => true
  | x :: a', y :: b' =>
      if (y <? x)%N then true
      else if (x <? y)%N then false
      else tuple_gt a' b'
  end.

(** [ver > latest]: versions compare by their keys; an unparseable
    candidate is below every version and exceeds nothing. *)
Definition gt (ver latest : parsed) : bool :=
  match ver, latest with
  | Release a, Release b => tuple_gt (key a) (key b)
  | Release _, Unparseable _ => true
  | Unparseable _, _ => false
  end.

End Version.

(** ** Python values, paths and the world *)

(** A value as [json.load] builds it; [None] is [JNull], a [dict] is
    [JObj], an [int] is [JNum] and a [float] (a number written with a
    fraction or an exponent, [NaN], [Infinity]) is [JFloat]. *)
#[local] Unset Elimination Schemes.
Inductive json : Type :=
  | JNull
  | JBool (b : bool)
  | JNum (n : Z)
  | JFloat (f : float)
  | JStr (s : string)
  | JArr (l : list json)
  | JObj (m : gmap string json).
#[local] Set Elimination Schemes.

(** [Dict[str, Any]] *)
Abbreviation dict := (gmap string json).

(** Truthiness of a value, as tested by [if extra_context:]. *)
Definition truthy (j : json) : bool :=
  match j with
  | JNull => false
  | JBool b => b
  | JNum n => negb (n =? 0)%Z
  | JFloat f => negb (PrimFloat.eqb f PrimFloat.zero)
  | JStr s => PyStr.truthy s
  | JArr l => match l with [] => false | _ => true end
  | JObj m => negb (bool_decide (m = ∅))
  end.

(** [Optional[str]] as a JSON value. *)
Definition json_of_opt (o : option string) : json :=
  match o with Some s => JStr s | None => JNull end.

(** Where a path starts: nowhere (a relative path), at the root, or at the
    root written with exactly two slashes, which [pathlib] keeps apart. *)
Inductive anchor_kind : Type := Relative | Slash | DoubleSlash.

(** A [pathlib.Path]: where it starts, and its components. *)
Record Path : Type := mkPath { anchor : anchor_kind; parts : list string }.

(** Whether the path starts at the root. *)
Definition anchored (p : Path) : bool :=
  match anchor p with Relative => false | _ => true end.

Module PyPath.

(** [Path(s)]: empty and [.] components disappear; two leading slashes
    are kept, three or more count as one. *)
Definition of_str (s : string) : Path :=
  mkPath (if PyStr.startswith s "//" && negb (PyStr.startswith s "///")
          then DoubleSlash
          else if PyStr.startswith s "/" then Slash else Relative)
         (filter (fun seg => seg ≠ "" ∧ seg ≠ ".") (PyStr.split "/"%char s)).

(** [p / q]: an anchored right operand replaces the left one. *)
Definition join (p q : Path) : Path :=
  if anchored q then q else mkPath (anchor p) (parts p ++ parts q)%list.

(** [p.parent] *)
Definition parent (p : Path) : Path :=
  mkPath (anchor p) (removelast (parts p)).

(** [p.name] *)
Definition name (p : Path) : string := List.last (parts p) "".

(** [str(p)] *)
Definition to_str (p : Path) : string :=
  match anchor p with
  | Slash => "/" +:+ PyStr.join "/" (parts p)
  | DoubleSlash => "//" +:+ PyStr.join "/" (parts p)
  | Relative => match parts p with
                | [] => "."
                | ps => PyStr.join "/" ps
                end
  end.

(** [p.absolute()] in the working directory [cwd]. *)
Definition absolute (cwd : list string) (p : Path) : Path :=
  join (mkPath Slash cwd) p.

(** The place an absolute path names, read off its text: each [..]
    leaves the directory reached so far.  Whether the directories on the
    way exist is the file system's matter, see [resolve] below. *)
Definition locate (cwd : list string) (p : Path) : list string :=
  fold_left (fun acc seg => if decide (seg = "..") then removelast acc
                            else (acc ++ [seg])%list)
            (parts (absolute cwd p)) [].

End PyPath.

Infix "//" := PyPath.join (at level 40, left associativity).

(** What a file holds: a JSON document (the text is identified with the
    document it denotes) or text that is no JSON. *)
Inductive content : Type :=
  | Json (j : json)
  | Text (s : string).

Inductive node : Type :=
  | Dir
  | File (c : content).

(** The part of the machine the commands read and write.  Lookups are
    answered from [fs] alone: the only failure of a lookup is an entry
    that is missing. *)
Record world : Type := mkWorld {
  fs : gmap (list string) node;
  stdout : list string;
}.

(** Whether [k] is a directory: the root, or a directory entry. *)
Definition is_dir (f : gmap (list string) node) (k : list string) : bool :=
  match k with
  | [] => true
  | _ => match f !! k with Some Dir => true | _ => false end
  end.

(** The walk of the operating system along the components of a path: a
    [..] is taken from a directory that exists, and there is no way
    through anything else. *)
Fixpoint walk (f : gmap (list string) node) (acc segs : list string)
  : option (list string) :=
  match segs with
  | [] => Some acc
  | seg :: rest =>
      if decide (seg = "..") then
        if is_dir f acc then walk f (removelast acc) rest else None
      else walk f (acc ++ [seg])%list rest
  end.

(** The place a path leads to, from the working directory [cwd]. *)
Definition resolve (cwd : list string) (f : gmap (list string) node)
    (p : Path) : option (list string) :=
  walk f [] (parts (PyPath.absolute cwd p)).

(** The entry a path leads to, if any. *)
Definition lookup_path (cwd : list string) (f : gmap (list string) node)
    (p : Path) : option node :=
  match resolve cwd f p with
  | Some k => f !! k
  | None => None
  end.

(** ** Exceptions and the command monad *)

(** An exception with the arguments it was built from; for the last seven
    the argument is the message [str(error)] gives back. *)
Inductive exn : Type :=
  | InvalidCookiecutterRepository (url msg : string)
  | InvalidCookiecutterReplay (path msg : string)
  | UnableToFindCookiecutterTemplate (dir : string)
  | CruftError (msg : string)
  | CookiecutterException (msg : string)
  | GitCommandError (stderr : string)
  | TypeError (msg : string)
  | ValueError (msg : string)
  | KeyError (key : string)
  | AttributeError (msg : string)
  | AssertionError (msg : string)
  | OSError (msg : string).

Inductive result (A : Type) : Type :=
  | Ok (a : A)
  | Raise (e : exn).
Arguments Ok {A} a.
Arguments Raise {A} e.

(** A command runs in a world and leaves a world, also when it raises. *)
Definition M (A : Type) : Type := world -> result A * world.

Definition ret {A} (a : A) : M A := fun w => (Ok a, w).
Definition raise {A} (e : exn) : M A := fun w => (Raise e, w).
Definition bind {A B} (m : M A) (k : A -> M B) : M B :=
  fun w => match m w with
           | (Ok a, w') => k a w'
           | (Raise e, w') => (Raise e, w')
           end.
Definition lift {A} (r : result A) : M A := fun w => (r, w).

(** [try: m except <handled>: handler] *)
Definition try_except {A} (m : M A) (handler : exn -> option (M A)) : M A :=
  fun w => match m w with
           | (Ok a, w') => (Ok a, w')
           | (Raise e, w') =>
               match handler e with
               | Some h => h w'
               | None => (Raise e, w')
               end
           end.

Declare Scope cmd_scope.
Delimit Scope cmd_scope with cmd.
Notation "'do' x <- m ; k" := (bind m (fun x => k))
  (at level 10, x name, m at level 100, k at level 200) : cmd_scope.
Notation "'do' ' p <- m ; k" := (bind m (fun x => match x with p => k end))
  (at level 10, p pattern, m at level 100, k at level 200) : cmd_scope.
Notation "m ;; k" := (bind m (fun _ => k))
  (at level 100, k at level 200, right associativity) : cmd_scope.

Definition get_world : M world := fun w => (Ok w, w).
Definition put_fs (f : gmap (list string) node) : M unit :=
  fun w => (Ok tt, mkWorld f (stdout w)).
(** [typer.echo(msg)] *)
Definition echo (msg : string) : M unit :=
  fun w => (Ok tt, mkWorld (fs w) (stdout w ++ [msg])%list).

(** [with resource: body]: [release] runs on every exit of [body]. *)
Definition finally {A} (body : M A) (release : M unit) : M A :=
  fun w => match body w with
           | (r, w') => match release w' with
                        | (Ok _, w'') => (r, w'')
                        | (Raise e, w'') => (Raise e, w'')
                        end
           end.

(** ** Collaborators *)

Inductive ref_kind : Type := TagReference | Head | RemoteReference.

Record GitRef : Type := mkRef { kind : ref_kind; name : string }.

(** A [git.Repo] handle: its references and the commit [HEAD] is at. *)
Record Repo : Type := mkRepo { refs : list GitRef; hexsha : string }.

(** The dictionary [{"template": ..., "checkout": ...}] that [create] hands
    to [get_cookiecutter_repo], which updates its ["checkout"] entry. *)
Record CruftState : Type := mkState {
  st_template : string;
  st_checkout : option string;
}.

(** What [get_user_config] returns, as far as it is used. *)
Record Config : Type := mkConfig {
  default_context : dict;
  replay_dir : string;
}.

(** The libraries and helpers the two modules call; none of them is part of
    the sources, they are parameters of the development. *)
Record Env : Type := mkEnv {
  (** the process's working directory *)
  cwd : list string;
  (** [urllib.parse.urlparse]: scheme, netloc and path, or the
      [ValueError] of a reference that is no URL *)
  urlparse : string -> result (string * string * string);
  (** [AltTemporaryDirectory]: acquiring and removing the directory *)
  mkdtemp : option string -> M string;
  rmtree : string -> M unit;
  (** [Repo.clone_from]; raises [GitCommandError] *)
  clone_from : string -> Path -> M Repo;
  (** [repo.git.checkout]; raises [GitCommandError] *)
  git_checkout : Repo -> string -> M Repo;
  (** [cookiecutter.config.get_user_config] *)
  get_user_config : option string -> bool -> M Config;
  (** [cookiecutter.generate.generate_context] *)
  generate_context : Path -> dict -> dict -> M dict;
  (** [cookiecutter.prompt.prompt_for_config] *)
  prompt_for_config : dict -> bool -> M dict;
  (** [cookiecutter.replay.load], called with the replay directory and
      the name of the replay file *)
  load_replay : Path -> Path -> M dict;
  (** [cookiecutter.replay.dump], called with the directory, the name and
      the context *)
  save_replay : Path -> Path -> dict -> M unit;
  (** [cookiecutter.generate.generate_files] *)
  generate_files : Path -> dict -> bool -> string -> M string;
}.

(** ** [cruft/_commands/utils/cookiecutter.py] *)

Module Cookiecutter.

Local Open Scope cmd_scope.

Definition LATEST : string := ":latest:".
Definition BRANCH : string := "branch:".

Section WithEnv.

Context (env : Env).

(** [p.exists()] *)
Definition exists_ (p : Path) : M bool :=
  fun w => (Ok (bool_decide (is_Some (lookup_path (cwd env) (fs w) p))), w).

(** [resolve_template_url] *)
Definition resolve_template_url (url : string) : M string :=
  do '(scheme, netloc, path) <- lift (urlparse env url);
  if negb (PyStr.truthy scheme) || String.eqb scheme "file" then
    let file_path :=
      PyPath.absolute (cwd env) (PyPath.of_str netloc // PyPath.of_str path) in
    do found <- exists_ file_path;
    if found : bool then ret (PyPath.to_str file_path) else ret url
  else ret url.

Definition is_tag (r : GitRef) : bool :=
  match kind r with TagReference => true | _ => false end.

(** Line 79: the version read off a tag name. *)
Definition tag_version (r : GitRef) : Version.parsed :=
  Version.parse (Version.strip_non_numeric (name r)).

(** Lines 80-81: one round of the loop. *)
Definition raise_latest (latest : Version.parsed) (r : GitRef) : Version.parsed :=
  let ver := tag_version r in
  if Version.gt ver latest then ver else latest.

(** The loop of lines 77-81: the running maximum over the tags. *)
Definition latest_version (tags : list GitRef) : Version.parsed :=
  fold_left raise_latest tags (Version.parse "0.0.0").

(** Lines 74-88: the reference under the latest policy, from the tags. *)
Definition select_latest (tags : list GitRef) : result string :=
  match tags with
  | [] => Ok "HEAD"
  | _ =>
      let vers := Version.to_str (latest_version tags) in
      if String.eqb "0.0.0" vers then Ok "HEAD"
      else
        let ref_l :=
          map name (filter (fun r => PyStr.str_in vers (name r) = true) tags) in
        match ref_l with
        | [] => Raise (AssertionError ("No tag found for version: " +:+ vers))
        | r :: _ => Ok r
        end
  end.

(** Lines 69-91 of [get_cookiecutter_repo]: the reference to check out for
    a [checkout] that is not [None]. *)
Definition select_ref (repo : Repo) (checkout : string) : result string :=
  if PyStr.str_in checkout LATEST then
    select_latest (filter (fun r => is_tag r = true) (refs repo))
  else if PyStr.str_in BRANCH checkout then Ok (PyStr.replace checkout BRANCH "")
  else Ok checkout.

(** [get_cookiecutter_repo]: the repository handle and the updated state. *)
Definition get_cookiecutter_repo (cruft_state : CruftState)
    (cookiecutter_template_dir : Path) : M (Repo * CruftState) :=
  let template_git_url := st_template cruft_state in
  let checkout := st_checkout cruft_state in
  do repo <-
    try_except (clone_from env template_git_url cookiecutter_template_dir)
      (fun e => match e with
                | GitCommandError stderr =>
                    Some (raise (InvalidCookiecutterRepository template_git_url
                            ("Failed to clone the repo. " +:+ PyStr.strip stderr)))
                | _ => None
                end);
  match checkout with
  | Some checkout =>
      do ref <- lift (select_ref repo checkout);
      let checkout := ref in
      let cruft_state := mkState template_git_url (Some checkout) in
      do repo <-
        try_except (git_checkout env repo ref)
          (fun e => match e with
                    | GitCommandError stderr =>
                        Some (raise (InvalidCookiecutterRepository template_git_url
                                ("Failed to check out the reference " +:+ checkout
                                 +:+ ". " +:+ PyStr.strip stderr)))
                    | _ => None
                    end);
      ret (repo, cruft_state)
  | None => ret (repo, cruft_state)
  end.

(** The children of [dir] whose name matches [*cookiecutter.*]; what
    cannot be reached or is no directory has none. *)
Definition glob_cookiecutter (dir : Path) : M (list (string * node)) :=
  fun w =>
    match resolve (cwd env) (fs w) dir with
    | Some d =>
        if is_dir (fs w) d then
          (Ok (omap (fun '(k, nd) =>
                       if bool_decide (k ≠ [] ∧ removelast k = d)
                          && PyStr.str_in "cookiecutter." (List.last k "")
                       then Some (List.last k "", nd) else None)
                    (map_to_list (fs w))), w)
        else (Ok [], w)
    | None => (Ok [], w)
    end.

(** [_validate_cookiecutter] *)
Definition _validate_cookiecutter (cookiecutter_template_dir : Path) : M unit :=
  do items <- glob_cookiecutter cookiecutter_template_dir;
  let main_cookiecutter_directory :=
    List.find (fun '(nm, nd) =>
                 match nd with Dir => true | File _ => false end
                 && PyStr.str_in "{{" nm && PyStr.str_in "}}" nm) items in
  match main_cookiecutter_directory with
  | Some _ => ret tt
  | None =>
      raise (UnableToFindCookiecutterTemplate
               (PyPath.to_str cookiecutter_template_dir))
  end.

(** [d[key]] *)
Definition getitem (d : dict) (key : string) : result json :=
  match d !! key with
  | Some v => Ok v
  | None => Raise (KeyError key)
  end.

(** [d.update(other)] for a mapping [other]: the entries of [other] replace
    those of [d]. *)
Definition update (d : dict) (other : json) : result dict :=
  match other with
  | JObj m => Ok (m ∪ d)
  | _ => Raise (TypeError "object is not iterable")
  end.

(** Lines 150-153: the replay snapshot joins the extra context. *)
Definition merge_replay (extra_context : json) (replay_context : dict)
  : result json :=
  match extra_context with
  | JObj d =>
      match getitem replay_context "cookiecutter" with
      | Ok r => match update d r with
                | Ok d' => Ok (JObj d')
                | Raise e => Raise e
                end
      | Raise e => Raise e
      end
  | _ => getitem replay_context "cookiecutter"
  end.

(** Lines 131-155: where the replay lives, and the extra context after the
    snapshot was merged into it. *)
Definition resolve_replay (config_dict : Config) (extra_context : json)
    (replay_file : Path) : M (Path * Path * json) :=
  do found <- exists_ replay_file;
  do '(replay_dir, replay_path, replay_file) <-
    (if found : bool then
       ret (PyPath.parent replay_file, replay_file,
            PyPath.of_str (PyPath.name replay_file))
     else
       let replay_dir := PyPath.of_str (replay_dir config_dict) in
       let replay_path := replay_dir // replay_file in
       do found' <- exists_ replay_path;
       if found' : bool then
         ret (PyPath.parent replay_path, replay_path,
              PyPath.of_str (PyPath.name replay_path))
       else
         raise (InvalidCookiecutterReplay (PyPath.to_str replay_path)
                  "No replay file found."));
  do found'' <- exists_ replay_path;
  if found'' : bool then
    do replay_context <-
      try_except (load_replay env replay_dir replay_file)
        (fun e => match e with
                  | TypeError error | ValueError error =>
                      Some (raise (InvalidCookiecutterReplay
                                     (PyPath.to_str (replay_dir // replay_file))
                                     ("Failed to load the replay file. " +:+ error)))
                  | _ => None
                  end);
    do extra_context <- lift (merge_replay extra_context replay_context);
    ret (replay_dir, replay_file, extra_context)
  else
    raise (InvalidCookiecutterReplay (PyPath.to_str replay_path)
             "No replay file found.").

Definition is_engine_key (key : string) : bool := PyStr.startswith key "_".

(** Lines 158-165: the entries whose key starts with an underscore, and the
    others. *)
Definition split_extra_context (extra_context : json) : result (dict * dict) :=
  if truthy extra_context then
    match extra_context with
    | JObj d =>
        Ok (filter (fun kv => is_engine_key kv.1 = true) d,
            filter (fun kv => is_engine_key kv.1 = false) d)
    | _ => Raise (AttributeError "object has no attribute 'items'")
    end
  else Ok (∅, ∅).

(** Lines 157-190: the context is generated from the user variables,
    prompted, completed with the engine variables and saved for replay. *)
Definition finish_context (template_git_url : string) (context_file : Path)
    (config_dict : Config) (extra_context : json) (no_input : bool)
    (replay : option (Path * Path)) : M dict :=
  do '(jinja2_env_vars, user_context) <- lift (split_extra_context extra_context);
  do context <-
    generate_context env context_file (default_context config_dict) user_context;
  do answers <- prompt_for_config env context no_input;
  let context :=
    <["cookiecutter" :=
        JObj (jinja2_env_vars ∪ <["_template" := JStr template_git_url]> answers)]>
      context in
  match replay with
  | Some (replay_dir, replay_file) =>
      try_except (save_replay env replay_dir replay_file context)
        (fun e => match e with
                  | TypeError error | ValueError error =>
                      Some (raise (InvalidCookiecutterReplay
                                     (PyPath.to_str replay_file)
                                     ("Failed to load the replay file. " +:+ error)))
                  | _ => None
                  end);;
      ret context
  | None => ret context
  end.

(** [generate_cookiecutter_context] *)
Definition generate_cookiecutter_context (template_git_url : string)
    (cookiecutter_template_dir : Path) (config_file : option Path)
    (default_config : bool) (extra_context : json) (no_input : bool)
    (replay_file : option Path) : M dict :=
  _validate_cookiecutter cookiecutter_template_dir;;
  let context_file := cookiecutter_template_dir // PyPath.of_str "cookiecutter.json" in
  do config_dict <-
    get_user_config env (PyPath.to_str <$> config_file) default_config;
  do '(replay, extra_context) <-
    match replay_file with
    | Some replay_file =>
        do '(replay_dir, replay_file, extra_context) <-
          resolve_replay config_dict extra_context replay_file;
        ret (Some (replay_dir, replay_file), extra_context)
    | None => ret (None, extra_context)
    end;
  finish_context template_git_url context_file config_dict extra_context
    no_input replay.

(** [get_extra_context_from_file] *)
Definition get_extra_context_from_file (extra_context_file : Path) : M json :=
  do found <- exists_ extra_context_file;
  if found : bool then
    fun w =>
      match lookup_path (cwd env) (fs w) extra_context_file with
      | Some (File (Json j)) => (Ok j, w)
      | Some (File (Text _)) => (Raise (ValueError "Expecting value"), w)
      | Some Dir => (Raise (OSError "Is a directory"), w)
      | None => (Raise (OSError "No such file or directory"), w)
      end
  else ret (JObj ∅).

End WithEnv.

End Cookiecutter.

(** ** [cruft/_commands/create.py] *)

Module Create.

Local Open Scope cmd_scope.

(** An argument of a call, before it is bound to a parameter. *)
Inductive pyval : Type :=
  | VStr (s : string)
  | VPath (p : Path)
  | VBool (b : bool)
  | VJson (j : json)
  | VNone.

Definition opt_path (o : option Path) : pyval :=
  match o with Some p => VPath p | None => VNone end.

Definition str_of_nat (n : nat) : string := Version.str_of_int (N.of_nat n).

Section WithEnv.

Context (env : Env).

(** A positional call of [generate_cookiecutter_context].  The function
    declares seven parameters, the last five with defaults; Python binds
    the arguments before the body runs and raises [TypeError] when their
    number does not fit.  An argument that is not of the annotated type
    makes the body fail where it first uses it, which is modelled at the
    binding. *)
Definition call_generate_cookiecutter_context (args : list pyval) : M dict :=
  let given := length args in
  if (7 <? given)%nat then
    raise (TypeError
             ("generate_cookiecutter_context() takes from 2 to 7 positional "
              +:+ "arguments but " +:+ str_of_nat given +:+ " were given"))
  else if (given <? 2)%nat then
    raise (TypeError
             "generate_cookiecutter_context() missing required positional arguments")
  else
    let defaults := [VNone; VNone; VNone; VBool false; VNone; VBool false; VNone] in
    match (args ++ drop given defaults)%list with
    | [VStr template_git_url; VPath cookiecutter_template_dir; config_file;
       VBool default_config; extra_context; VBool no_input; replay_file] =>
        match config_file, extra_context, replay_file with
        | (VPath _ | VNone), (VJson _ | VNone), (VPath _ | VNone) =>
            Cookiecutter.generate_cookiecutter_context env template_git_url
              cookiecutter_template_dir
              (match config_file with VPath p => Some p | _ => None end)
              default_config
              (match extra_context with VJson j => j | _ => JNull end)
              no_input
              (match replay_file with VPath p => Some p | _ => None end)
        | _, _, _ => raise (AttributeError "argument of another type")
        end
    | _ => raise (AttributeError "argument of another type")
    end.

(** Modelled from the spec: [utils.cruft.json_dumps] is not part of the
    sources.  The state record is serialised as one JSON document; the file
    is identified with the document, so the order of the keys is not
    represented. *)
Definition json_dumps (cruft_content : dict) : content :=
  Json (JObj cruft_content).

(** [path.write_text(text)]: the file is created or replaced in a
    directory that exists; opening fails with an [OSError] when there is no
    way to the path, when its directory is missing or no directory, and
    when the path is itself a directory. *)
Definition write_text (p : Path) (c : content) : M unit :=
  fun w =>
    match resolve (cwd env) (fs w) p with
    | Some k =>
        if negb (is_dir (fs w) (removelast k)) then
          (Raise (OSError "No such file or directory"), w)
        else if is_dir (fs w) k then (Raise (OSError "Is a directory"), w)
        else (Ok tt, mkWorld (<[k := File c]> (fs w)) (stdout w))
    | None => (Raise (OSError "No such file or directory"), w)
    end.

(** Truthiness of [Optional[List[str]]] and [Optional[str]]. *)
Definition truthy_list (o : option (list string)) : bool :=
  match o with Some (_ :: _) => true | _ => false end.
Definition truthy_str (o : option string) : bool :=
  match o with Some s => PyStr.truthy s | None => false end.

(** Lines 59-86 of [create]: the rendering and the state file, with the
    renderer's exception turned into [CruftError]. *)
Definition render_and_record (template_git_url last_commit : string)
    (checkout : option string) (cookiecutter_template_dir : Path)
    (context : dict) (overwrite_if_exists : bool) (output_dir : Path)
    (directory : option string) (skip : option (list string)) : M Path :=
  try_except
    (do project_dir_str <-
       generate_files env cookiecutter_template_dir context overwrite_if_exists
         (PyPath.to_str output_dir);
     let project_dir := PyPath.of_str project_dir_str in
     let cruft_content : dict :=
       <["template" := JStr template_git_url]>
       (<["commit" := JStr last_commit]>
       (<["checkout" := json_of_opt checkout]>
       (<["context" := JObj context]>
       (<["directory" := json_of_opt directory]> ∅)))) in
     let cruft_content :=
       if truthy_list skip
       then <["skip" := JArr (JStr <$> default [] skip)]> cruft_content
       else cruft_content in
     write_text (project_dir // PyPath.of_str ".cruft.json")
       (json_dumps cruft_content);;
     echo ("Created project in " +:+ PyPath.to_str project_dir);;
     ret project_dir)
    (fun exc => match exc with
                | CookiecutterException msg =>
                    Some (raise (CruftError (PyStr.replace msg "Error: " "")))
                | _ => None
                end).

(** Lines 46-47 of [create]: an extra-context file takes the place of the
    extra context given by the caller. *)
Definition load_extra_context (extra_context : json)
    (extra_context_file : option Path) : M json :=
  match extra_context_file with
  | Some extra_context_file =>
      Cookiecutter.get_extra_context_from_file env extra_context_file
  | None => ret extra_context
  end.

(** [create] *)
Definition create (template_git_url : string) (output_dir : Path)
    (config_file replay_file : option Path) (default_config : bool)
    (extra_context : json) (extra_context_file : option Path)
    (no_input : bool) (directory checkout : option string)
    (overwrite_if_exists : bool) (skip : option (list string)) : M Path :=
  do template_git_url <- Cookiecutter.resolve_template_url env template_git_url;
  let cruft_state := mkState template_git_url checkout in
  do cookiecutter_template_dir_str <- mkdtemp env directory;
  finally
    (let cookiecutter_template_dir := PyPath.of_str cookiecutter_template_dir_str in
     do '(repo, cruft_state) <-
       Cookiecutter.get_cookiecutter_repo env cruft_state cookiecutter_template_dir;
     let checkout := st_checkout cruft_state in
     let last_commit := hexsha repo in
     let cookiecutter_template_dir :=
       if truthy_str directory
       then cookiecutter_template_dir // PyPath.of_str (default "" directory)
       else cookiecutter_template_dir in
     do extra_context <- load_extra_context extra_context extra_context_file;
     do context <-
       call_generate_cookiecutter_context
         [VStr template_git_url; VStr last_commit;
          VPath cookiecutter_template_dir; opt_path config_file;
          VBool default_config; VJson extra_context; VBool no_input;
          opt_path replay_file];
     render_and_record template_git_url last_commit checkout
       cookiecutter_template_dir context overwrite_if_exists output_dir
       directory skip)
    (rmtree env cookiecutter_template_dir_str).

End WithEnv.

End Create.

(** * Example data *)

Module Examples.

(** A repository with three version tags and a branch. *)
Definition tagged_repo : Repo :=
  mkRepo [mkRef TagReference "v1.0.0"; mkRef Head "main";
          mkRef TagReference "v1.2.0"; mkRef TagReference "v1.1.0"]
         "4f2a9c1".

(** A repository without tags. *)
Definition untagged_repo : Repo := mkRepo [mkRef Head "main"] "4f2a9c1".

(** A repository whose tags carry no number. *)
Definition named_repo : Repo :=
  mkRepo [mkRef TagReference "release"; mkRef TagReference "nightly"] "4f2a9c1".

(** The working directory of the examples. *)
Definition home : list string := ["home"; "dev"].

(** The variables [declared] with the values [overwrites] gives them; a
    variable that is not declared is ignored. *)
Definition overwrite (declared overwrites : dict) : dict :=
  map_imap (fun key v => Some (default v (overwrites !! key))) declared.

(** Modelled from the spec: [cookiecutter.generate.generate_context] is not
    part of the sources.  "Build the base context by merging the template's
    own declared defaults with the user variables (user variables override
    template defaults for same key)": the variables the template declares,
    [defaults], take their values from the configured default context and
    then from the user variables, all under the key ["cookiecutter"]. *)
Definition merge_context (defaults : dict) (context_file : Path)
    (default_context extra_context : dict) : M dict :=
  ret {["cookiecutter" :=
          JObj (overwrite (overwrite defaults default_context) extra_context)]}.

(** Modelled from the spec: [cookiecutter.prompt.prompt_for_config] is not
    part of the sources.  "When non-interactive mode is requested, prompting
    must return the base context unchanged"; here the user also accepts
    every default when asked. *)
Definition accept_defaults (context : dict) (no_input : bool) : M dict :=
  match context !! "cookiecutter" with
  | Some (JObj variables) => ret variables
  | _ => raise (KeyError "cookiecutter")
  end.


(** Modelled from the spec: [cookiecutter.replay.load] is not part of the
    sources.  "Replay storage: load(dir, name) -> context | error": the
    snapshot is the file [name] of [dir]; it loads when it holds a saved
    rendering context, a JSON object with a ["cookiecutter"] entry, and
    fails to deserialize otherwise. *)
Definition load_snapshot (replay_dir replay_file : Path) : M dict :=
  fun w =>
    match lookup_path home (fs w) (replay_dir // replay_file) with
    | Some (File (Json (JObj m))) =>
        match m !! "cookiecutter" with
        | Some _ => (Ok m, w)
        | None =>
            (Raise (ValueError "Context is required to contain a cookiecutter key"), w)
        end
    | Some (File _) => (Raise (ValueError "Expecting value"), w)
    | Some Dir => (Raise (OSError "Is a directory"), w)
    | None => (Raise (OSError "No such file or directory"), w)
    end.

(** Modelled from the spec: [cookiecutter.replay.dump] is not part of the
    sources.  "Replay storage: save(dir, name, context) -> success | error":
    the context becomes the content of the file [name] of [dir]. *)
Definition save_snapshot (replay_dir replay_file : Path) (context : dict)
  : M unit :=
  fun w =>
    match resolve home (fs w) (replay_dir // replay_file) with
    | Some k =>
        if is_dir (fs w) k then (Raise (OSError "Is a directory"), w)
        else (Ok tt, mkWorld (<[k := File (Json (JObj context))]> (fs w))
                             (stdout w))
    | None => (Raise (OSError "No such file or directory"), w)
    end.

(** The renderer of the examples: it creates the directory [demo] in the
    output directory and returns its path. *)
Definition render_demo (repo_dir : Path) (context : dict)
    (overwrite_if_exists : bool) (output_dir : string) : M string :=
  fun w =>
    (Ok (output_dir +:+ "/demo"),
     mkWorld (<[PyPath.locate home (PyPath.of_str (output_dir +:+ "/demo"))
                := Dir]>
              (<[PyPath.locate home (PyPath.of_str output_dir) := Dir]> (fs w)))
             (stdout w)).

(** Collaborators that all succeed: the clone is [tagged_repo] in the
    directory [/tmp/clone], the template declares the variable [project],
    the renderer writes to [<output>/demo]. *)
Definition demo_env : Env :=
  {| cwd := home;
     urlparse := fun url => Ok ("https", "example.com", "/template.git");
     mkdtemp := fun _ => ret "/tmp/clone";
     rmtree := fun _ => ret tt;
     clone_from := fun _ _ => ret tagged_repo;
     git_checkout := fun repo _ => ret repo;
     get_user_config := fun _ _ => ret (mkConfig ∅ "/home/dev/.cookiecutter_replay");
     generate_context := merge_context {["project" := JStr "demo"]};
     prompt_for_config := accept_defaults;
     load_replay := load_snapshot;
     save_replay := save_snapshot;
     generate_files := render_demo |}.

(** The same collaborators with a renderer that fails with [msg]. *)
Definition failing_renderer (msg : string) : Env :=
  {| cwd := home;
     urlparse := urlparse demo_env;
     mkdtemp := mkdtemp demo_env;
     rmtree := rmtree demo_env;
     clone_from := clone_from demo_env;
     git_checkout := git_checkout demo_env;
     get_user_config := get_user_config demo_env;
     generate_context := generate_context demo_env;
     prompt_for_config := prompt_for_config demo_env;
     load_replay := load_replay demo_env;
     save_replay := save_replay demo_env;
     generate_files := fun _ _ _ _ => raise (CookiecutterException msg) |}.

(** The clone of a template with one variable, and no replay file. *)
Definition cloned_files : gmap (list string) node :=
  {[ ["tmp"] := Dir;
     ["tmp"; "clone"] := Dir;
     ["tmp"; "clone"; "{{cookiecutter.project}}"] := Dir;
     ["tmp"; "clone"; "cookiecutter.json"]
       := File (Json (JObj {["project" := JStr "demo"]}));
     ["home"] := Dir;
     ["home"; "dev"] := Dir ]}.

Definition cloned : world := mkWorld cloned_files [].

(** The same with a replay file that holds a saved context. *)
Definition saved_context : dict :=
  {["cookiecutter" :=
      JObj {["project" := JStr "saved"; "_template" := JStr "old";
             "_flag" := JStr "saved"]}]}.

Definition replayed : world :=
  mkWorld (<[["home"; "dev"; "replay.json"] := File (Json (JObj saved_context))]>
             cloned_files) [].

Definition clone_dir : Path := PyPath.of_str "/tmp/clone".

(** The same collaborators with a clone that fails with [stderr]. *)
Definition failing_clone (stderr : string) : Env :=
  {| cwd := home;
     urlparse := urlparse demo_env;
     mkdtemp := mkdtemp demo_env;
     rmtree := rmtree demo_env;
     clone_from := fun _ _ => raise (GitCommandError stderr);
     git_checkout := git_checkout demo_env;
     get_user_config := get_user_config demo_env;
     generate_context := generate_context demo_env;
     prompt_for_config := prompt_for_config demo_env;
     load_replay := load_replay demo_env;
     save_replay := save_replay demo_env;
     generate_files := generate_files demo_env |}.

(** The same collaborators with a checkout that fails with [stderr]. *)
Definition failing_checkout (stderr : string) : Env :=
  {| cwd := home;
     urlparse := urlparse demo_env;
     mkdtemp := mkdtemp demo_env;
     rmtree := rmtree demo_env;
     clone_from := clone_from demo_env;
     git_checkout := fun _ _ => raise (GitCommandError stderr);
     get_user_config := get_user_config demo_env;
     generate_context := generate_context demo_env;
     prompt_for_config := prompt_for_config demo_env;
     load_replay := load_replay demo_env;
     save_replay := save_replay demo_env;
     generate_files := generate_files demo_env |}.

(** The same collaborators for a template given as a local path: the
    reference has no scheme and is all path. *)
Definition local_env : Env :=
  {| cwd := home;
     urlparse := fun url => Ok ("", "", url);
     mkdtemp := mkdtemp demo_env;
     rmtree := rmtree demo_env;
     clone_from := clone_from demo_env;
     git_checkout := git_checkout demo_env;
     get_user_config := get_user_config demo_env;
     generate_context := generate_context demo_env;
     prompt_for_config := prompt_for_config demo_env;
     load_replay := load_replay demo_env;
     save_replay := save_replay demo_env;
     generate_files := generate_files demo_env |}.


(** The clone with an extra-context file beside it, which holds a number
    with a fraction. *)
Definition with_extra_file : world :=
  mkWorld (<[["home"; "dev"; "extra.json"]
             := File (Json (JObj {["name" := JStr "from file";
                                   "ratio" := JFloat 1.5%float]}))]>
             cloned_files) [].

(** The clone after a rendering into [out], where something else put a
    directory named [.cruft.json]. *)
Definition blocked : world :=
  mkWorld (<[["home"; "dev"; "out"; "demo"; ".cruft.json"] := Dir]>
             cloned_files) [].

End Examples.

(** * Properties *)

(** ** Strings *)

Section StringFacts.

Import PyStr.

Lemma startswith_app (p s : string) : startswith (p +:+ s) p = true.
Proof.
  induction p as [|c p IH]; simpl; [reflexivity|].
  rewrite Ascii.eqb_refl. exact IH.
Qed.

Lemma str_in_empty (s : string) : str_in "" s = true.
Proof. destruct s; reflexivity. Qed.

Lemma str_in_app (p s : string) : str_in p (p +:+ s) = true.
Proof.
  destruct p as [|c p]; [apply str_in_empty|].
  change (startswith (String c p +:+ s) (String c p)
          || str_in (String c p) (p +:+ s) = true).
  rewrite startswith_app. reflexivity.
Qed.

(** The characters still to drop after a match are dropped unseen. *)
Lemma replace_from_skip (old new pre rest : string) :
  replace_from old new (String.length pre) (pre +:+ rest)
  = replace_from old new 0 rest.
Proof.
  induction pre as [|c pre IH]; simpl.
  - destruct rest; reflexivity.
  - exact IH.
Qed.

(** A leading occurrence is replaced and the scan goes on behind it. *)
Lemma replace_leading (old new rest : string) :
  old <> "" ->
  replace (old +:+ rest) old new = new +:+ replace rest old new.
Proof.
  destruct old as [|c old]; [congruence|]. intros _.
  unfold replace.
  change (replace_from (String c old) new 0 (String c (old +:+ rest))
          = new +:+ replace_from (String c old) new 0 rest).
  cbn [replace_from].
  change (String c (old +:+ rest)) with (String c old +:+ rest).
  rewrite startswith_app.
  replace (String.length (String c old) - 1) with (String.length old)
    by (cbn [String.length]; lia).
  rewrite replace_from_skip. reflexivity.
Qed.

(** Without an occurrence nothing is replaced. *)
Lemma replace_absent (s old new : string) :
  str_in old s = false -> replace s old new = s.
Proof.
  intros H.
  destruct old as [|c old]; [rewrite str_in_empty in H; discriminate|].
  unfold replace.
  induction s as [|d s IH]; [reflexivity|].
  cbn [str_in] in H. apply orb_false_elim in H as [H1 H2].
  cbn [replace_from]. rewrite H1. f_equal. apply IH, H2.
Qed.

End StringFacts.

(** ** Paths and the file system *)

Section PathFacts.

(** A walk that arrives, arrives where the text of the path says. *)
Lemma walk_arrives (f : gmap (list string) node) (segs acc k : list string) :
  walk f acc segs = Some k ->
  k = fold_left (fun acc seg => if decide (seg = "..") then removelast acc
                                else (acc ++ [seg])%list) segs acc.
Proof.
  revert acc. induction segs as [|seg rest IH]; intros acc H; cbn in *.
  - congruence.
  - destruct (decide (seg = "..")).
    + destruct (is_dir f acc); [|discriminate]. apply IH, H.
    + apply IH, H.
Qed.

Lemma resolve_locate (cwd : list string) (f : gmap (list string) node)
    (p : Path) (k : list string) :
  resolve cwd f p = Some k -> k = PyPath.locate cwd p.
Proof. apply walk_arrives. Qed.




Lemma exists_found (env : Env) (p : Path) (nd : node) (w : world) :
  lookup_path (cwd env) (fs w) p = Some nd ->
  Cookiecutter.exists_ env p w = (Ok true, w).
Proof.
  intros H. unfold Cookiecutter.exists_. rewrite H.
  rewrite bool_decide_true by eauto. reflexivity.
Qed.

End PathFacts.

(** ** The checkout policy *)

Section CheckoutPolicy.

Import Cookiecutter.

(** C3, at a failing input.  The test of line 70 is [checkout in LATEST]:
    it asks whether the policy occurs inside the marker, not whether the
    marker occurs inside the policy.  The policy ["x:latest:"] contains the
    marker and is nevertheless checked out as an explicit reference, in every
    repository; the marker alone does resolve to the latest tag, and so does
    ["test"], which is no marker but a piece of one. *)
Theorem latest_marker_inside_policy_is_explicit :
  (forall repo, select_ref repo "x:latest:" = Ok "x:latest:")
  /\ select_ref Examples.tagged_repo ":latest:" = Ok "v1.2.0"
  /\ select_ref Examples.tagged_repo "test" = Ok "v1.2.0".
Proof.
  split; [intros repo; reflexivity|].
  split; vm_compute; reflexivity.
Qed.

(** A policy that starts with the branch marker is no piece of the latest
    marker and contains the branch marker. *)
Lemma branch_policy_tests (rest : string) :
  PyStr.str_in (BRANCH +:+ rest) LATEST = false
  /\ PyStr.str_in BRANCH (BRANCH +:+ rest) = true.
Proof. split; [reflexivity | apply str_in_app]. Qed.

(** C4, counterexample: the remainder of ["branch:branch:x"] after its
    prefix is ["branch:x"], the reference checked out is ["x"]. *)
Lemma branch_prefix_stripped_twice :
  select_ref Examples.untagged_repo "branch:branch:x" = Ok "x"
  /\ select_ref Examples.untagged_repo "branch:branch:x" <> Ok "branch:x".
Proof. split; [reflexivity | discriminate]. Qed.

(** C4, amended.  A policy that starts with ["branch:"] takes the branch
    path, and the reference is the remainder with every further occurrence
    of ["branch:"] deleted; it is the remainder itself when the remainder
    holds no ["branch:"]. *)
Theorem branch_policy_reference (repo : Repo) (rest : string) :
  select_ref repo (BRANCH +:+ rest)
  = Ok (if PyStr.str_in BRANCH rest then PyStr.replace rest BRANCH ""
        else rest).
Proof.
  unfold select_ref.
  destruct (branch_policy_tests rest) as [-> ->].
  rewrite replace_leading by discriminate.
  destruct (PyStr.str_in BRANCH rest) eqn:E; [reflexivity|].
  rewrite replace_absent by exact E. reflexivity.
Qed.

End CheckoutPolicy.

(** ** The order of versions *)

Section VersionOrder.

Import Version.

Lemma tuple_gt_irrefl (a : list N) : tuple_gt a a = false.
Proof.
  induction a as [|x a IH]; [reflexivity|].
  cbn. rewrite N.ltb_irrefl. exact IH.
Qed.

Lemma tuple_gt_trans_le (a b c : list N) :
  tuple_gt a b = false -> tuple_gt b c = false -> tuple_gt a c = false.
Proof.
  revert b c. induction a as [|x a IH]; intros b c Hab Hbc; [reflexivity|].
  destruct b as [|y b]; [discriminate|].
  destruct c as [|z c]; [discriminate|].
  cbn [tuple_gt] in *.
  destruct (N.ltb_spec y x); [discriminate|].
  destruct (N.ltb_spec z y); [discriminate|].
  destruct (N.ltb_spec z x); [lia|].
  destruct (N.ltb_spec x y).
  - destruct (N.ltb_spec x z); [reflexivity | lia].
  - destruct (N.ltb_spec y z).
    + destruct (N.ltb_spec x z); [reflexivity | lia].
    + destruct (N.ltb_spec x z); [reflexivity|]. eapply IH; eassumption.
Qed.

Lemma tuple_gt_asym (a b : list N) :
  tuple_gt a b = true -> tuple_gt b a = false.
Proof.
  revert b. induction a as [|x a IH]; intros b H; [discriminate|].
  destruct b as [|y b]; [reflexivity|].
  cbn [tuple_gt] in *.
  destruct (N.ltb_spec y x).
  - destruct (N.ltb_spec x y); [lia | reflexivity].
  - destruct (N.ltb_spec x y); [discriminate|]. apply IH, H.
Qed.

Lemma gt_irrefl (a : parsed) : gt a a = false.
Proof. destruct a; cbn; [apply tuple_gt_irrefl | reflexivity]. Qed.

Lemma gt_trans_le (a b c : parsed) :
  gt a b = false -> gt b c = false -> gt a c = false.
Proof.
  destruct a as [a|], b as [b|], c as [c|]; cbn; try congruence.
  apply tuple_gt_trans_le.
Qed.

Lemma gt_asym (a b : parsed) : gt a b = true -> gt b a = false.
Proof.
  destruct a as [a|], b as [b|]; cbn; try congruence. apply tuple_gt_asym.
Qed.

(** Without a digit, what [strip_non_numeric] leaves is empty or starts
    with a dot. *)
Lemma strip_without_digit (s : string) :
  has_digit s = false ->
  strip_non_numeric s = "" \/ exists s', strip_non_numeric s = String "." s'.
Proof.
  induction s as [|c s IH]; cbn; [left; reflexivity|].
  intros H. apply orb_false_elim in H as [Hc Hs].
  unfold is_numeric_char. rewrite Hc. cbn.
  destruct (Ascii.eqb_spec c "."%char) as [->|_]; [right; eauto | apply IH, Hs].
Qed.

Lemma parse_without_digit (s : string) :
  has_digit s = false ->
  parse (strip_non_numeric s) = Unparseable (strip_non_numeric s).
Proof.
  intros H. destruct (strip_without_digit s H) as [->|[s' ->]]; reflexivity.
Qed.

End VersionOrder.

Section LatestPolicy.

Import Cookiecutter.

(** The loop ends at a bound of every tag's version that is the initial
    bound or the version of one of the tags. *)
Lemma running_maximum (tags : list GitRef) (l0 : Version.parsed) :
  let l := fold_left raise_latest tags l0 in
  Version.gt l0 l = false
  /\ (forall t, In t tags -> Version.gt (tag_version t) l = false)
  /\ (l = l0 \/ exists t, In t tags /\ l = tag_version t).
Proof.
  revert l0. induction tags as [|t ts IH]; intros l0; cbn.
  - split; [apply gt_irrefl|]. split; [tauto | left; reflexivity].
  - destruct (IH (raise_latest l0 t)) as (H1 & H2 & H3).
    assert (Hl0 : Version.gt l0 (raise_latest l0 t) = false
                  /\ Version.gt (tag_version t) (raise_latest l0 t) = false).
    { unfold raise_latest. destruct (Version.gt (tag_version t) l0) eqn:E.
      - split; [apply gt_asym, E | apply gt_irrefl].
      - split; [apply gt_irrefl | exact E]. }
    destruct Hl0 as [Ha Hb].
    split; [eapply gt_trans_le; eassumption|].
    split.
    + intros u [<-|Hu]; [eapply gt_trans_le; eassumption | apply H2, Hu].
    + destruct H3 as [->|(u & Hu & ->)].
      * unfold raise_latest.
        destruct (Version.gt (tag_version t) l0); [|left; reflexivity].
        right. exists t. split; [left|]; reflexivity.
      * right. exists u. split; [right; exact Hu | reflexivity].
Qed.

(** Tags without a version leave the bound where it is. *)
Lemma unparseable_tags_keep_bound (tags : list GitRef) (l0 : Version.parsed) :
  (forall t, In t tags -> Version.has_digit (name t) = false) ->
  fold_left raise_latest tags l0 = l0.
Proof.
  revert l0. induction tags as [|t ts IH]; intros l0 H; [reflexivity|].
  cbn. unfold raise_latest at 2, tag_version.
  rewrite parse_without_digit by (apply H; left; reflexivity).
  cbn. apply IH. intros u Hu. apply H. right. exact Hu.
Qed.

(** The head of the list comprehension of line 86 is the first match. *)
Lemma first_match {A} (P : GitRef -> bool) (tags : list GitRef) (x : A)
    (f : string -> A) :
  match map name (filter (fun r => P r = true) tags) with
  | [] => x
  | r :: _ => f r
  end
  = match List.find P tags with
    | Some r => f (name r)
    | None => x
    end.
Proof.
  induction tags as [|t ts IH]; [reflexivity|].
  rewrite filter_cons. cbn [List.find].
  destruct (P t) eqn:E.
  - rewrite decide_True by reflexivity. reflexivity.
  - rewrite decide_False by discriminate. exact IH.
Qed.

(** C5.  Under the latest policy the loop computes a bound [latest] that no
    tag's stripped-numeric version exceeds and that is the initial 0.0.0 or
    the version of one of the tags; the reference is ["HEAD"] for no tags
    or a bound still printed 0.0.0, and otherwise the name of the first tag
    that contains the printed bound (an assertion fails when there is
    none).  The tags v1.0.0, v1.2.0, v1.1.0 resolve to ["v1.2.0"] in any
    order, no tags resolve to ["HEAD"], and the marker [":latest:"] selects
    this resolution over the repository's tags. *)
Theorem latest_policy_resolution (tags : list GitRef) :
  let latest := latest_version tags in
  (forall t, In t tags -> Version.gt (tag_version t) latest = false)
  /\ (latest = Version.parse "0.0.0"
      \/ exists t, In t tags /\ latest = tag_version t)
  /\ select_latest tags
     = (if bool_decide (tags = []) || String.eqb "0.0.0" (Version.to_str latest)
        then Ok "HEAD"
        else match List.find (fun r => PyStr.str_in (Version.to_str latest) (name r))
                             tags with
             | Some r => Ok (name r)
             | None => Raise (AssertionError
                         ("No tag found for version: " +:+ Version.to_str latest))
             end)
  /\ (Permutation (map name tags) ["v1.0.0"; "v1.2.0"; "v1.1.0"] ->
      select_latest tags = Ok "v1.2.0")
  /\ (tags = [] -> select_latest tags = Ok "HEAD")
  /\ (forall repo,
        filter (fun r => is_tag r = true) (refs repo) = tags ->
        select_ref repo LATEST = select_latest tags).
Proof.
  intros latest.
  destruct (running_maximum tags (Version.parse "0.0.0")) as (_ & Hmax & Hwit).
  split; [exact Hmax|]. split; [exact Hwit|]. split; [|split; [|split]].
  - unfold select_latest. destruct tags as [|t ts]; [reflexivity|].
    rewrite bool_decide_false by discriminate. cbn [orb].
    fold latest.
    destruct (String.eqb "0.0.0" (Version.to_str latest)); [reflexivity|].
    apply (first_match (fun r => PyStr.str_in (Version.to_str latest) (name r))).
  - intros Hp.
    assert (Hlen := Permutation_length Hp). rewrite length_map in Hlen.
    assert (Hin : forall x, In x (map name tags)
                            <-> In x ["v1.0.0"; "v1.2.0"; "v1.1.0"]).
    { intros x. split; apply Permutation_in; [exact Hp | symmetry; exact Hp]. }
    destruct tags as [|[k1 n1] [|[k2 n2] [|[k3 n3] [|]]]]; try discriminate Hlen.
    cbn [map name] in Hin.
    pose proof (proj1 (Hin n1) (or_introl eq_refl)) as H1.
    pose proof (proj1 (Hin n2) (or_intror (or_introl eq_refl))) as H2.
    pose proof (proj1 (Hin n3) (or_intror (or_intror (or_introl eq_refl)))) as H3.
    pose proof (proj2 (Hin "v1.0.0") (or_introl eq_refl)) as Ha.
    pose proof (proj2 (Hin "v1.2.0") (or_intror (or_introl eq_refl))) as Hb.
    pose proof (proj2 (Hin "v1.1.0") (or_intror (or_intror (or_introl eq_refl)))) as Hc.
    clear Hin Hp Hlen Hmax Hwit latest.
    cbn [In] in H1, H2, H3.
    destruct H1 as [<-|[<-|[<-|[]]]], H2 as [<-|[<-|[<-|[]]]],
             H3 as [<-|[<-|[<-|[]]]];
      try (vm_compute; reflexivity);
      exfalso; cbn [In] in Ha, Hb, Hc;
      repeat match goal with
             | H : _ \/ _ |- _ => destruct H
             | H : False |- _ => destruct H
             | H : _ = _ |- _ => discriminate H
             end.
  - intros ->. reflexivity.
  - intros repo <-. reflexivity.
Qed.

Lemma latest_policy_resolution_witness :
  select_latest [mkRef TagReference "v1.1.0"; mkRef TagReference "v1.0.0";
                 mkRef TagReference "v1.2.0"] = Ok "v1.2.0"
  /\ select_latest [] = Ok "HEAD"
  /\ select_ref Examples.tagged_repo LATEST
     = select_latest [mkRef TagReference "v1.0.0"; mkRef TagReference "v1.2.0";
                      mkRef TagReference "v1.1.0"].
Proof.
  split; [|split].
  - apply (latest_policy_resolution
             [mkRef TagReference "v1.1.0"; mkRef TagReference "v1.0.0";
              mkRef TagReference "v1.2.0"]).
    cbn [map name].
    apply perm_trans with ["v1.0.0"; "v1.1.0"; "v1.2.0"];
      [apply perm_swap | apply perm_skip, perm_swap].
  - apply (latest_policy_resolution []). reflexivity.
  - apply (latest_policy_resolution
             [mkRef TagReference "v1.0.0"; mkRef TagReference "v1.2.0";
              mkRef TagReference "v1.1.0"]).
    reflexivity.
Defined.

(** C6.  When no tag name holds a digit, no tag's version exceeds the 0.0.0
    bound, the bound stays, and the latest policy returns ["HEAD"]. *)
Theorem numberless_tags_resolve_to_head (tags : list GitRef) :
  (forall t, In t tags -> Version.has_digit (name t) = false) ->
  select_latest tags = Ok "HEAD"
  /\ latest_version tags = Version.parse "0.0.0".
Proof.
  intros H.
  assert (E : latest_version tags = Version.parse "0.0.0")
    by (apply unparseable_tags_keep_bound, H).
  split; [|exact E].
  unfold select_latest. rewrite E. destruct tags; reflexivity.
Qed.

Lemma numberless_tags_resolve_to_head_witness :
  select_ref Examples.named_repo LATEST = Ok "HEAD".
Proof.
  apply (numberless_tags_resolve_to_head
           [mkRef TagReference "release"; mkRef TagReference "nightly"]).
  intros t [<-|[<-|[]]]; reflexivity.
Defined.

End LatestPolicy.

(** ** The replay merge *)

Section ReplayMerge.

Import Cookiecutter.

(** C2, counterexample: the caller gives [name = "mine"], the replay holds
    [name = "saved"], and the merged extra context holds the replay's
    value. *)
Lemma replay_value_replaces_caller_value :
  exists merged,
    merge_replay (JObj {["name" := JStr "mine"]})
                 {["cookiecutter" := JObj {["name" := JStr "saved"]}]}
    = Ok (JObj merged)
    /\ merged !! "name" = Some (JStr "saved")
    /\ merged !! "name" <> Some (JStr "mine").
Proof.
  exists {["name" := JStr "saved"]}.
  split; [vm_compute; reflexivity|]. split; [reflexivity | discriminate].
Qed.

(** C2, amended.  When the caller's extra context is a mapping, the replay
    snapshot is merged into it by [dict.update]: every key of the snapshot
    holds the snapshot's value afterwards, also where the caller gave one,
    and the caller's values remain for the keys the snapshot lacks. *)
Theorem replay_merge_lookup (extra replay saved : dict) :
  replay !! "cookiecutter" = Some (JObj saved) ->
  exists merged,
    merge_replay (JObj extra) replay = Ok (JObj merged)
    /\ forall key, merged !! key = match saved !! key with
                                   | Some v => Some v
                                   | None => extra !! key
                                   end.
Proof.
  intros H. exists (saved ∪ extra). split.
  - unfold merge_replay, getitem. rewrite H. reflexivity.
  - intros key. rewrite lookup_union.
    destruct (saved !! key), (extra !! key); reflexivity.
Qed.

Lemma replay_merge_lookup_witness :
  exists merged,
    merge_replay (JObj {["name" := JStr "mine"; "other" := JStr "kept"]})
                 {["cookiecutter" := JObj {["name" := JStr "saved"]}]}
    = Ok (JObj merged)
    /\ merged !! "name" = Some (JStr "saved")
    /\ merged !! "other" = Some (JStr "kept").
Proof.
  destruct (replay_merge_lookup
              {["name" := JStr "mine"; "other" := JStr "kept"]}
              {["cookiecutter" := JObj {["name" := JStr "saved"]}]}
              {["name" := JStr "saved"]}) as (merged & E & L);
    [vm_compute; reflexivity|].
  exists merged. split; [exact E|].
  split; [rewrite (L "name") | rewrite (L "other")]; vm_compute; reflexivity.
Defined.

End ReplayMerge.

(** ** The extra-context file *)

Section ExtraContextFile.

Import Cookiecutter Create.



End ExtraContextFile.

(** ** The renderer's failure *)

Section RendererFailure.

Import Create.

(** The handler of line 85 turns a [CookiecutterException] into a
    [CruftError] whose message has no ["Error: "] left. *)
Lemma handler_turns_into_cruft_error (env : Env) (template_git_url last_commit : string)
    (checkout : option string) (dir : Path) (context : dict)
    (overwrite : bool) (output_dir : Path) (directory : option string)
    (skip : option (list string)) (msg : string) (w w' : world) :
  generate_files env dir context overwrite (PyPath.to_str output_dir) w
  = (Raise (CookiecutterException msg), w') ->
  render_and_record env template_git_url last_commit checkout dir context
    overwrite output_dir directory skip w
  = (Raise (CruftError (PyStr.replace msg "Error: " "")), w').
Proof.
  intros H. unfold render_and_record, try_except, bind. rewrite H. reflexivity.
Qed.

(** C9, counterexample: of the message ["Error: a Error: b"] the prefix
    would leave ["a Error: b"]; the error raised carries ["a b"]. *)
Lemma every_error_prefix_is_removed :
  render_and_record (Examples.failing_renderer "Error: a Error: b")
    "https://example.com/template.git" "4f2a9c1" None Examples.clone_dir ∅
    false (PyPath.of_str "out") None None Examples.cloned
  = (Raise (CruftError "a b"), Examples.cloned)
  /\ CruftError "a b" <> CruftError "a Error: b".
Proof. split; [vm_compute; reflexivity | discriminate]. Qed.

(** C9, amended.  When the renderer fails with a templating error whose
    message begins with ["Error: "], lines 59-86 raise [CruftError], never
    the renderer's exception, with that prefix and every further occurrence
    of ["Error: "] deleted from the message: the message without its prefix
    when ["Error: "] does not occur in it again. *)
Theorem renderer_error_is_cruft_error (env : Env)
    (template_git_url last_commit : string)
    (checkout : option string) (dir : Path) (context : dict)
    (overwrite : bool) (output_dir : Path) (directory : option string)
    (skip : option (list string)) (rest : string) (w w' : world) :
  generate_files env dir context overwrite (PyPath.to_str output_dir) w
  = (Raise (CookiecutterException ("Error: " +:+ rest)), w') ->
  render_and_record env template_git_url last_commit checkout dir context
    overwrite output_dir directory skip w
  = (Raise (CruftError (if PyStr.str_in "Error: " rest
                        then PyStr.replace rest "Error: " ""
                        else rest)), w').
Proof.
  intros H. rewrite (handler_turns_into_cruft_error _ _ _ _ _ _ _ _ _ _ _ _ _ H).
  rewrite replace_leading by discriminate.
  destruct (PyStr.str_in "Error: " rest) eqn:E; [reflexivity|].
  rewrite replace_absent by exact E. reflexivity.
Qed.

Lemma renderer_error_is_cruft_error_witness :
  render_and_record (Examples.failing_renderer "Error: unknown variable")
    "https://example.com/template.git" "4f2a9c1" None Examples.clone_dir ∅
    false (PyPath.of_str "out") None None Examples.cloned
  = (Raise (CruftError "unknown variable"), Examples.cloned).
Proof.
  apply (renderer_error_is_cruft_error
           (Examples.failing_renderer "Error: unknown variable")
           "https://example.com/template.git" "4f2a9c1" None
           Examples.clone_dir ∅ false (PyPath.of_str "out") None None
           "unknown variable" Examples.cloned Examples.cloned).
  reflexivity.
Defined.

End RendererFailure.

(** ** The call of the context assembly in [create] *)

Section CreateCall.

Import Create.

Lemma finally_raises {A} (body : M A) (release : M unit) (w : world) :
  (exists e w', body w = (Raise e, w')) ->
  exists e w', finally body release w = (Raise e, w').
Proof.
  intros (e & w' & H). unfold finally. rewrite H.
  destruct (release w') as [[[]|e'] w'']; eauto.
Qed.

Lemma bind_raises {A B} (m : M A) (k : A -> M B) (w : world) :
  (forall a w1, m w = (Ok a, w1) -> exists e w', k a w1 = (Raise e, w')) ->
  exists e w', bind m k w = (Raise e, w').
Proof.
  intros H. unfold bind. destruct (m w) as [[a|e] w1]; eauto.
Qed.

(** C1, at a failing input.  [create] passes eight positional arguments
    (the template, the commit, the directory, ...) to
    [generate_cookiecutter_context], which declares seven parameters and no
    commit: the call raises [TypeError].  So no invocation of [create]
    returns a project directory, and with collaborators that all succeed
    the [TypeError] is what comes out, the world unchanged: no state file
    is written. *)
Theorem create_stops_at_the_context_call :
  (forall env template_git_url output_dir config_file replay_file
          default_config extra_context extra_context_file no_input
          directory checkout overwrite_if_exists skip w,
     exists e w',
       create env template_git_url output_dir config_file replay_file
         default_config extra_context extra_context_file no_input directory
         checkout overwrite_if_exists skip w = (Raise e, w'))
  /\ create Examples.demo_env "https://example.com/template.git"
       (PyPath.of_str "out") None None false JNull None true None None false
       None Examples.cloned
     = (Raise (TypeError
          "generate_cookiecutter_context() takes from 2 to 7 positional arguments but 8 were given"),
        Examples.cloned).
Proof.
  split; [|vm_compute; reflexivity].
  intros. unfold create.
  apply bind_raises; intros url w1 _.
  apply bind_raises; intros d w2 _.
  apply finally_raises.
  apply bind_raises; intros [repo st] w3 _.
  apply bind_raises; intros ec w4 _.
  apply bind_raises; intros ctx w5 H.
  discriminate H.
Qed.

End CreateCall.


(** ** The template root *)

Section Validation.

Import Cookiecutter.

Context (env : Env).

(** [_validate_cookiecutter] returns or raises
    [UnableToFindCookiecutterTemplate]; it writes nothing. *)
Lemma validate_outcome (dir : Path) (w : world) :
  _validate_cookiecutter env dir w = (Ok tt, w)
  \/ _validate_cookiecutter env dir w
     = (Raise (UnableToFindCookiecutterTemplate (PyPath.to_str dir)), w).
Proof.
  unfold _validate_cookiecutter, bind, glob_cookiecutter.
  destruct (resolve (cwd env) (fs w) dir) as [d|]; [|right; reflexivity].
  destruct (is_dir (fs w) d); [|right; reflexivity].
  match goal with
  | |- context [List.find ?P ?l] => destruct (List.find P l)
  end; [left | right]; reflexivity.
Qed.

(** A directory that passes can be reached and has a template root. *)
Lemma validate_inv (dir : Path) (w : world) :
  _validate_cookiecutter env dir w = (Ok tt, w) ->
  exists k,
    resolve (cwd env) (fs w) dir = Some (removelast k)
    /\ is_dir (fs w) (removelast k) = true
    /\ fs w !! k = Some Dir /\ k <> []
    /\ PyStr.str_in "cookiecutter." (List.last k "") = true
    /\ PyStr.str_in "{{" (List.last k "") = true
    /\ PyStr.str_in "}}" (List.last k "") = true.
Proof.
  unfold _validate_cookiecutter, bind, glob_cookiecutter.
  destruct (resolve (cwd env) (fs w) dir) as [d|] eqn:R; [|discriminate].
  destruct (is_dir (fs w) d) eqn:Hd; [|discriminate].
  match goal with
  | |- context [List.find ?P ?l] => destruct (List.find P l) as [[nm nd]|] eqn:F
  end; [intros _ | discriminate].
  apply find_some in F. destruct F as [I C].
  apply list_elem_of_In, list_elem_of_omap in I.
  destruct I as ([k nd'] & I & E).
  apply elem_of_map_to_list in I.
  destruct (bool_decide (k ≠ [] ∧ removelast k = d)) eqn:B; [|discriminate E].
  apply bool_decide_eq_true in B. destruct B as [Hne Hdir].
  destruct (PyStr.str_in "cookiecutter." (List.last k "")) eqn:G;
    [|discriminate E].
  cbn in E. inversion E; subst nm nd'.
  apply andb_true_iff in C. destruct C as [C Hclose].
  apply andb_true_iff in C. destruct C as [D Hopen].
  destruct nd; [|discriminate D].
  exists k. rewrite Hdir. repeat split; assumption.
Qed.

(** [_validate_cookiecutter] accepts a directory that can be reached and
    has a template root. *)
Lemma validate_template_root (dir : Path) (w : world) (k : list string) :
  resolve (cwd env) (fs w) dir = Some (removelast k) ->
  is_dir (fs w) (removelast k) = true ->
  fs w !! k = Some Dir ->
  k <> [] ->
  PyStr.str_in "cookiecutter." (List.last k "") = true ->
  PyStr.str_in "{{" (List.last k "") = true ->
  PyStr.str_in "}}" (List.last k "") = true ->
  _validate_cookiecutter env dir w = (Ok tt, w).
Proof.
  intros Hdir Hd Hk Hne Hglob Hopen Hclose.
  unfold _validate_cookiecutter, bind, glob_cookiecutter. rewrite Hdir, Hd.
  match goal with
  | |- context [List.find ?P ?l] => destruct (List.find P l) as [x|] eqn:F
  end; [reflexivity|].
  exfalso.
  pose proof (find_none _ _ F (List.last k "", Dir)) as N.
  cbn beta iota in N. rewrite Hopen, Hclose in N.
  enough (In (List.last k "", Dir)
             (omap (fun '(k0, nd) =>
                      if bool_decide (k0 ≠ [] ∧ removelast k0 = removelast k)
                         && PyStr.str_in "cookiecutter." (List.last k0 "")
                      then Some (List.last k0 "", nd) else None)
                   (map_to_list (fs w)))) as I by (specialize (N I); discriminate N).
  apply list_elem_of_In, list_elem_of_omap.
  exists (k, Dir). split; [apply elem_of_map_to_list, Hk|].
  rewrite bool_decide_true by (split; [assumption | reflexivity]).
  rewrite Hglob. reflexivity.
Qed.

End Validation.

(** ** The context assembly *)

Section ContextAssembly.

Import Cookiecutter.

Context (env : Env).

(** A key survives the split on the side its first character selects. *)
Lemma lookup_split (b : bool) (d : dict) (key : string) :
  filter (fun kv => is_engine_key kv.1 = b) d !! key
  = if bool_decide (is_engine_key key = b) then d !! key else None.
Proof.
  case_bool_decide as E.
  - destruct (d !! key) as [v|] eqn:L.
    + apply map_lookup_filter_Some. split; [exact L | exact E].
    + apply map_lookup_filter_None. left. exact L.
  - apply map_lookup_filter_None. right. intros v _. exact E.
Qed.

(** The split of a mapping, empty or not. *)
Lemma split_extra_context_dict (d : dict) :
  split_extra_context (JObj d)
  = Ok (filter (fun kv => is_engine_key kv.1 = true) d,
        filter (fun kv => is_engine_key kv.1 = false) d).
Proof.
  unfold split_extra_context, truthy.
  case_bool_decide as E; [|reflexivity].
  subst d. cbn. rewrite !map_filter_empty. reflexivity.
Qed.

(** What the last stage of a successful assembly did. *)
Lemma finish_context_inv (template_git_url : string) (context_file : Path)
    (config_dict : Config) (extra : dict) (no_input : bool)
    (replay : option (Path * Path)) (w w' : world) (context : dict) :
  finish_context env template_git_url context_file config_dict (JObj extra)
    no_input replay w = (Ok context, w') ->
  exists base w1 answers w2,
    generate_context env context_file (default_context config_dict)
      (filter (fun kv => is_engine_key kv.1 = false) extra) w = (Ok base, w1)
    /\ prompt_for_config env base no_input w1 = (Ok answers, w2)
    /\ context
       = <["cookiecutter" :=
             JObj (filter (fun kv => is_engine_key kv.1 = true) extra
                   ∪ <["_template" := JStr template_git_url]> answers)]> base.
Proof.
  unfold finish_context, bind, lift. rewrite split_extra_context_dict.
  destruct (generate_context env _ _ _ w) as [[base|e] w1] eqn:G;
    [|discriminate].
  destruct (prompt_for_config env base no_input w1) as [[answers|e] w2] eqn:P;
    [|discriminate].
  intros H. exists base, w1, answers, w2.
  split; [reflexivity|]. split; [exact P|].
  destruct replay as [[replay_dir replay_file]|].
  - unfold try_except, ret, raise in H.
    destruct (save_replay env replay_dir replay_file _ w2) as [[[]|e] w3];
      [congruence | destruct e; discriminate H].
  - unfold ret in H. congruence.
Qed.




End ContextAssembly.



(** ** The replay file *)


Section ReplayFile.

Import Cookiecutter.

Context (env : Env).


End ReplayFile.


(** ** The template reference *)

Section TemplateUrl.

Import Cookiecutter.

Context (env : Env).

(** An absolute path is written with a leading slash. *)
Lemma absolute_starts_at_root (cwd : list string) (p : Path) :
  PyStr.startswith (PyPath.to_str (PyPath.absolute cwd p)) "/" = true.
Proof.
  unfold PyPath.absolute, PyPath.join, anchored, PyPath.to_str.
  destruct (anchor p) eqn:E; cbn [anchor]; try rewrite E; reflexivity.
Qed.

(** X1.  What [resolve_template_url] returns, when it returns: the
    world is as before, [urlparse] accepted the reference, and the result
    is the reference as given when its scheme is neither empty nor [file]
    or when its path leads to no entry, and otherwise the absolute path
    as text, which starts with a slash.  What [urlparse] raises is
    raised. *)
Theorem resolve_template_url_result (url : string) (w : world) :
  (forall e, urlparse env url = Raise e ->
             resolve_template_url env url w = (Raise e, w))
  /\ (forall r w',
        resolve_template_url env url w = (Ok r, w') ->
        w' = w
        /\ exists scheme netloc path,
             urlparse env url = Ok (scheme, netloc, path)
             /\ let file_path :=
                  PyPath.absolute (cwd env)
                    (PyPath.of_str netloc // PyPath.of_str path) in
                (scheme <> "" -> scheme <> "file" -> r = url)
                /\ (lookup_path (cwd env) (fs w) file_path = None -> r = url)
                /\ (scheme = "" \/ scheme = "file" ->
                    is_Some (lookup_path (cwd env) (fs w) file_path) ->
                    r = PyPath.to_str file_path
                    /\ PyStr.startswith r "/" = true)).
Proof.
  unfold resolve_template_url, bind, lift. split.
  - intros e U. rewrite U. reflexivity.
  - intros r w'.
    destruct (urlparse env url) as [[[scheme netloc] path]|e]; [|discriminate].
    assert (S : negb (PyStr.truthy scheme) || String.eqb scheme "file" = true
                <-> scheme = "" \/ scheme = "file").
    { rewrite orb_true_iff, String.eqb_eq.
      destruct scheme; cbn; intuition congruence. }
    destruct (negb (PyStr.truthy scheme) || String.eqb scheme "file") eqn:B.
    + unfold exists_, ret. case_bool_decide as F; intros H; inversion H; subst;
        (split; [reflexivity|]); exists scheme, netloc, path;
        (split; [reflexivity|]); cbv zeta.
      * split; [|split].
        { intros N1 N2. exfalso. destruct (proj1 S eq_refl); contradiction. }
        { intros L. rewrite L in F. destruct F; discriminate. }
        { intros _ _. split; [reflexivity | apply absolute_starts_at_root]. }
      * split; [|split]; try reflexivity.
        intros _ L. contradiction.
    + unfold ret. intros H. inversion H; subst. split; [reflexivity|].
      exists scheme, netloc, path. split; [reflexivity|]. cbv zeta.
      split; [|split]; try reflexivity.
      intros D _. exfalso. apply S in D. discriminate D.
Qed.

End TemplateUrl.

Lemma resolve_template_url_result_witness :
  exists r,
    Cookiecutter.resolve_template_url Examples.local_env
      "//home/dev/replay.json" Examples.replayed
    = (Ok r, Examples.replayed)
    /\ r = "//home/dev/replay.json".
Proof.
  destruct (Cookiecutter.resolve_template_url Examples.local_env
              "//home/dev/replay.json" Examples.replayed)
    as [[r|e] w'] eqn:H; [|exfalso; vm_compute in H; discriminate H].
  destruct (proj2 (resolve_template_url_result Examples.local_env
                     "//home/dev/replay.json" Examples.replayed) r w' H)
    as (-> & scheme & netloc & path & U & _ & _ & K).
  cbn [urlparse Examples.local_env] in U. inversion U; subst.
  exists r. split; [reflexivity|].
  destruct (K (or_introl eq_refl)) as [-> _].
  - vm_compute. eauto.
  - vm_compute. reflexivity.
Defined.

(** ** The clone and the checkout *)

Section CloneAndCheckout.

Import Cookiecutter.

Context (env : Env).

(** X2.  A failed clone surfaces as [InvalidCookiecutterRepository] for
    the template, with git's stripped error output; nothing is checked
    out. *)
Theorem clone_failure_is_invalid_repository (cruft_state : CruftState)
    (cookiecutter_template_dir : Path) (stderr : string) (w w' : world) :
  clone_from env (st_template cruft_state) cookiecutter_template_dir w
  = (Raise (GitCommandError stderr), w') ->
  get_cookiecutter_repo env cruft_state cookiecutter_template_dir w
  = (Raise (InvalidCookiecutterRepository (st_template cruft_state)
              ("Failed to clone the repo. " +:+ PyStr.strip stderr)), w').
Proof.
  intros H. unfold get_cookiecutter_repo, bind, try_except. rewrite H.
  reflexivity.
Qed.

(** X3.  A failed checkout surfaces as [InvalidCookiecutterRepository]
    whose message names the reference that was resolved from the policy,
    not the policy as given. *)
Theorem checkout_failure_names_resolved_reference (template : string)
    (checkout ref : string) (cookiecutter_template_dir : Path) (repo : Repo)
    (stderr : string) (w w1 w' : world) :
  clone_from env template cookiecutter_template_dir w = (Ok repo, w1) ->
  select_ref repo checkout = Ok ref ->
  git_checkout env repo ref w1 = (Raise (GitCommandError stderr), w') ->
  get_cookiecutter_repo env (mkState template (Some checkout))
    cookiecutter_template_dir w
  = (Raise (InvalidCookiecutterRepository template
              ("Failed to check out the reference " +:+ ref +:+ ". "
               +:+ PyStr.strip stderr)), w').
Proof.
  intros C S G. unfold get_cookiecutter_repo, bind, try_except, lift.
  cbn [st_template st_checkout]. rewrite C, S, G. reflexivity.
Qed.

(** X4.  No [GitCommandError] leaves [get_cookiecutter_repo]: whatever it
    raises is another exception. *)
Theorem git_errors_do_not_escape (cruft_state : CruftState)
    (cookiecutter_template_dir : Path) (e : exn) (w w' : world) :
  get_cookiecutter_repo env cruft_state cookiecutter_template_dir w
  = (Raise e, w') ->
  forall stderr, e <> GitCommandError stderr.
Proof.
  unfold get_cookiecutter_repo, bind, try_except, lift, ret, raise.
  destruct (clone_from env _ _ w) as [[repo|e0] w1].
  - destruct (st_checkout cruft_state) as [checkout|]; [|discriminate].
    destruct (select_ref repo checkout) as [ref|e1] eqn:S.
    + destruct (git_checkout env repo ref w1) as [[repo'|e2] w2];
        [discriminate|].
      destruct e2; intros H stderr0; inversion H; subst; discriminate.
    + intros H stderr0. inversion H; subst.
      unfold select_ref in S.
      destruct (PyStr.str_in checkout LATEST).
      * unfold select_latest in S.
        destruct (filter _ (refs repo)); [discriminate|].
        destruct (String.eqb _ _); [discriminate|].
        destruct (map name _); [|discriminate].
        inversion S. discriminate.
      * destruct (PyStr.str_in BRANCH checkout); discriminate.
  - destruct e0; intros H stderr0; inversion H; subst; discriminate.
Qed.

(** X5.  What a successful [get_cookiecutter_repo] did: without a checkout
    policy the clone is returned as it is and the state is unchanged; with
    one, the reference resolved from the policy was checked out and is what
    the state records, for the same template. *)
Theorem repo_state_records_reference (cruft_state cruft_state' : CruftState)
    (cookiecutter_template_dir : Path) (repo' : Repo) (w w' : world) :
  get_cookiecutter_repo env cruft_state cookiecutter_template_dir w
  = (Ok (repo', cruft_state'), w') ->
  st_template cruft_state' = st_template cruft_state
  /\ match st_checkout cruft_state with
     | None =>
         cruft_state' = cruft_state
         /\ clone_from env (st_template cruft_state) cookiecutter_template_dir w
            = (Ok repo', w')
     | Some checkout =>
         exists repo ref w1,
           clone_from env (st_template cruft_state) cookiecutter_template_dir w
           = (Ok repo, w1)
           /\ select_ref repo checkout = Ok ref
           /\ git_checkout env repo ref w1 = (Ok repo', w')
           /\ st_checkout cruft_state' = Some ref
     end.
Proof.
  unfold get_cookiecutter_repo, bind, try_except, lift, ret, raise.
  destruct (clone_from env _ _ w) as [[repo|e0] w1].
  - destruct (st_checkout cruft_state) as [checkout|] eqn:C.
    + destruct (select_ref repo checkout) as [ref|e1] eqn:S; [|discriminate].
      destruct (git_checkout env repo ref w1) as [[repo2|e2] w2] eqn:G.
      * intros H. inversion H; subst. split; [reflexivity|].
        exists repo, ref, w1. repeat split; reflexivity || assumption.
      * destruct e2; discriminate.
    + intros H. inversion H; subst. repeat split; reflexivity.
  - destruct e0; discriminate.
Qed.

End CloneAndCheckout.

Lemma clone_failure_is_invalid_repository_witness :
  Cookiecutter.get_cookiecutter_repo
    (Examples.failing_clone " fatal: repository not found ")
    (mkState "https://example.com/template.git" None) Examples.clone_dir
    Examples.cloned
  = (Raise (InvalidCookiecutterRepository "https://example.com/template.git"
              "Failed to clone the repo. fatal: repository not found"),
     Examples.cloned).
Proof.
  apply (clone_failure_is_invalid_repository
           (Examples.failing_clone " fatal: repository not found ")
           (mkState "https://example.com/template.git" None)
           Examples.clone_dir " fatal: repository not found "
           Examples.cloned Examples.cloned).
  reflexivity.
Defined.

Lemma checkout_failure_names_resolved_reference_witness :
  Cookiecutter.get_cookiecutter_repo
    (Examples.failing_checkout "error: pathspec 'dev' did not match ")
    (mkState "https://example.com/template.git" (Some "branch:dev"))
    Examples.clone_dir Examples.cloned
  = (Raise (InvalidCookiecutterRepository "https://example.com/template.git"
              "Failed to check out the reference dev. error: pathspec 'dev' did not match"),
     Examples.cloned).
Proof.
  apply (checkout_failure_names_resolved_reference
           (Examples.failing_checkout "error: pathspec 'dev' did not match ")
           "https://example.com/template.git" "branch:dev" "dev"
           Examples.clone_dir Examples.tagged_repo
           "error: pathspec 'dev' did not match "
           Examples.cloned Examples.cloned Examples.cloned).
  - reflexivity.
  - vm_compute. reflexivity.
  - reflexivity.
Defined.

Lemma git_errors_do_not_escape_witness :
  InvalidCookiecutterRepository "https://example.com/template.git"
    "Failed to clone the repo. fatal: repository not found"
  <> GitCommandError " fatal: repository not found ".
Proof.
  apply (git_errors_do_not_escape
           (Examples.failing_clone " fatal: repository not found ")
           (mkState "https://example.com/template.git" None)
           Examples.clone_dir _ Examples.cloned Examples.cloned).
  vm_compute. reflexivity.
Defined.

Lemma repo_state_records_reference_witness :
  exists repo' cruft_state' w',
    Cookiecutter.get_cookiecutter_repo Examples.demo_env
      (mkState "https://example.com/template.git" (Some "branch:dev"))
      Examples.clone_dir Examples.cloned
    = (Ok (repo', cruft_state'), w')
    /\ st_template cruft_state' = "https://example.com/template.git"
    /\ st_checkout cruft_state' = Some "dev".
Proof.
  destruct (Cookiecutter.get_cookiecutter_repo Examples.demo_env
      (mkState "https://example.com/template.git" (Some "branch:dev"))
      Examples.clone_dir Examples.cloned) as [[[repo' st']|e] w'] eqn:H.
  - destruct (repo_state_records_reference Examples.demo_env _ _ _ _ _ _ H)
      as [T (repo & ref & w1 & C & S & G & K)].
    exists repo', st', w'. split; [reflexivity|]. split; [exact T|].
    rewrite K. cbn in C. inversion C; subst repo.
    vm_compute in S. inversion S. reflexivity.
  - exfalso. vm_compute in H. discriminate H.
Defined.

(** ** The reference of the latest policy *)

Section LatestReference.

Import Cookiecutter.

(** X6.  The latest policy invents no reference: what it resolves to is
    [HEAD] or the name of a tag of the repository. *)
Theorem latest_reference_is_head_or_tag (repo : Repo) (checkout ref : string) :
  PyStr.str_in checkout LATEST = true ->
  select_ref repo checkout = Ok ref ->
  ref = "HEAD"
  \/ exists r, In r (refs repo) /\ kind r = TagReference /\ name r = ref.
Proof.
  intros L. unfold select_ref. rewrite L. unfold select_latest.
  destruct (filter (fun r => is_tag r = true) (refs repo)) as [|t tags] eqn:T.
  { intros H. inversion H. left. reflexivity. }
  destruct (String.eqb _ _).
  { intros H. inversion H. left. reflexivity. }
  match goal with
  | |- context [map name ?l] => destruct (map name l) as [|n ns] eqn:N
  end; [discriminate|].
  intros H. inversion H; subst n. right.
  assert (I : ref ∈ map name (filter (fun r =>
                PyStr.str_in (Version.to_str (latest_version (t :: tags)))
                  (name r) = true) (t :: tags)))
    by (rewrite N; left).
  apply list_elem_of_fmap in I. destruct I as (r & -> & I).
  apply list_elem_of_filter in I. destruct I as [_ I].
  rewrite <- T in I. apply list_elem_of_filter in I. destruct I as [K I].
  exists r. split; [apply list_elem_of_In, I|]. split; [|reflexivity].
  unfold is_tag in K. destruct (kind r); [reflexivity | discriminate..].
Qed.

(** Nothing is kept of a list no element of which passes. *)
Lemma filter_none {A} (P : A -> bool) (l : list A) :
  Forall (fun x => P x = false) l -> filter (fun x => P x = true) l = [].
Proof.
  induction 1 as [|x l Hx _ IH]; [reflexivity|].
  rewrite filter_cons_False by congruence. exact IH.
Qed.

(** X7.  Under the latest policy, when every tag's stripped name is a
    version, the highest of them is not [0.0.0] and no tag's name contains
    its text, the choice of the reference fails with the assertion of
    line 87. *)
Theorem latest_fails_without_matching_tag (repo : Repo) (checkout : string) :
  let tags := filter (fun r => is_tag r = true) (refs repo) in
  let vers := Version.to_str (latest_version tags) in
  PyStr.str_in checkout LATEST = true ->
  tags <> [] ->
  Forall (fun r => exists rel, tag_version r = Version.Release rel) tags ->
  vers <> "0.0.0" ->
  Forall (fun r => PyStr.str_in vers (name r) = false) tags ->
  select_ref repo checkout
  = Raise (AssertionError ("No tag found for version: " +:+ vers)).
Proof.
  intros tags vers L Hne _ Hv Hnone. unfold select_ref. rewrite L.
  fold tags. unfold select_latest. fold vers.
  pose proof (filter_none (fun r => PyStr.str_in vers (name r)) tags Hnone)
    as F.
  destruct tags as [|t rest]; [contradiction|].
  destruct (String.eqb "0.0.0" vers) eqn:E.
  { apply String.eqb_eq in E. congruence. }
  rewrite F. reflexivity.
Qed.

End LatestReference.

Lemma latest_reference_is_head_or_tag_witness :
  "v1.2.0" = "HEAD"
  \/ exists r, In r (refs Examples.tagged_repo)
               /\ kind r = TagReference /\ name r = "v1.2.0".
Proof.
  apply (latest_reference_is_head_or_tag Examples.tagged_repo ":latest:"
           "v1.2.0").
  - vm_compute. reflexivity.
  - vm_compute. reflexivity.
Defined.

Lemma latest_fails_without_matching_tag_witness :
  Cookiecutter.select_ref
    (mkRepo [mkRef TagReference "v1.0-rc.1"; mkRef Head "main"] "4f2a9c1")
    ":latest:"
  = Raise (AssertionError "No tag found for version: 1.0.1").
Proof.
  apply (latest_fails_without_matching_tag
           (mkRepo [mkRef TagReference "v1.0-rc.1"; mkRef Head "main"]
                   "4f2a9c1") ":latest:").
  - vm_compute. reflexivity.
  - vm_compute. discriminate.
  - vm_compute. repeat constructor. eexists. reflexivity.
  - vm_compute. discriminate.
  - vm_compute. repeat constructor.
Defined.

(** ** The template root of an assembly *)

Section TemplateRoot.

Import Cookiecutter.

Context (env : Env).

(** X8.  [_validate_cookiecutter] passes exactly when the template
    directory can be reached, is a directory and has a child directory
    whose name contains [cookiecutter.], [{{] and [}}]; otherwise it raises
    [UnableToFindCookiecutterTemplate] for the directory.  In both cases
    the world is as before. *)
Theorem template_root_decides_validation (dir : Path) (w : world) :
  (_validate_cookiecutter env dir w = (Ok tt, w)
   <-> exists k,
         resolve (cwd env) (fs w) dir = Some (removelast k)
         /\ is_dir (fs w) (removelast k) = true
         /\ fs w !! k = Some Dir /\ k <> []
         /\ PyStr.str_in "cookiecutter." (List.last k "") = true
         /\ PyStr.str_in "{{" (List.last k "") = true
         /\ PyStr.str_in "}}" (List.last k "") = true)
  /\ (_validate_cookiecutter env dir w = (Ok tt, w)
      \/ _validate_cookiecutter env dir w
         = (Raise (UnableToFindCookiecutterTemplate (PyPath.to_str dir)), w)).
Proof.
  split; [|apply validate_outcome]. split.
  - apply validate_inv.
  - intros (k & Hdir & Hd & Hk & Hne & Hglob & Hopen & Hclose).
    apply (validate_template_root env dir w k); assumption.
Qed.

(** X9.  Without a template root the assembly stops at once with
    [UnableToFindCookiecutterTemplate]: no configuration is read, no replay
    looked up, nothing generated or prompted. *)
Theorem assembly_requires_template_root (template_git_url : string)
    (cookiecutter_template_dir : Path) (config_file : option Path)
    (default_config : bool) (extra_context : json) (no_input : bool)
    (replay_file : option Path) (w : world) :
  (forall k,
     fs w !! k = Some Dir -> k <> [] ->
     removelast k = PyPath.locate (cwd env) cookiecutter_template_dir ->
     PyStr.str_in "cookiecutter." (List.last k "") = true ->
     PyStr.str_in "{{" (List.last k "") = true ->
     PyStr.str_in "}}" (List.last k "") = false) ->
  generate_cookiecutter_context env template_git_url
    cookiecutter_template_dir config_file default_config extra_context
    no_input replay_file w
  = (Raise (UnableToFindCookiecutterTemplate
              (PyPath.to_str cookiecutter_template_dir)), w).
Proof.
  intros Hnone. unfold generate_cookiecutter_context, bind.
  destruct (validate_outcome env cookiecutter_template_dir w) as [V|V];
    [|rewrite V; reflexivity].
  exfalso. destruct (validate_inv _ _ _ V)
    as (k & Hdir & _ & Hk & Hne & Hglob & Hopen & Hclose).
  apply resolve_locate in Hdir.
  rewrite (Hnone k Hk Hne Hdir Hglob Hopen) in Hclose. discriminate Hclose.
Qed.

End TemplateRoot.

Lemma assembly_requires_template_root_witness :
  Cookiecutter.generate_cookiecutter_context Examples.demo_env
    "https://example.com/template.git" (PyPath.of_str "/tmp/other") None
    false (JObj {["name" := JStr "x"]}) true None Examples.cloned
  = (Raise (UnableToFindCookiecutterTemplate "/tmp/other"), Examples.cloned).
Proof.
  apply (assembly_requires_template_root Examples.demo_env
           "https://example.com/template.git" (PyPath.of_str "/tmp/other")
           None false (JObj {["name" := JStr "x"]}) true None
           Examples.cloned).
  intros k H _ D. exfalso.
  cbn [fs Examples.cloned] in H. unfold Examples.cloned_files in H.
  repeat (apply lookup_insert_Some in H;
          destruct H as [[<- _]|[_ H]];
          [vm_compute in D; discriminate D|]).
  apply lookup_singleton_Some in H. destruct H as [<- _].
  vm_compute in D. discriminate D.
Defined.

(** ** The assembled context *)

Section AssembledContext.

Import Cookiecutter.

Context (env : Env).


(** X11.  Without a replay file, the context of a successful assembly is the
    generated base context with its ["cookiecutter"] entry replaced: there
    an underscore-prefixed key of the extra context holds the caller's
    value, [_template] otherwise holds the template reference, and every
    other key holds the prompt's answer.  The base context was generated
    from the other keys of the extra context, and the world is as the
    prompt left it. *)
Theorem assembled_context_lookup (template_git_url : string)
    (cookiecutter_template_dir : Path) (config_file : option Path)
    (default_config : bool) (extra : dict) (no_input : bool)
    (w w' : world) (context : dict) :
  generate_cookiecutter_context env template_git_url
    cookiecutter_template_dir config_file default_config (JObj extra)
    no_input None w = (Ok context, w') ->
  exists config_dict base answers variables w0 w1,
    get_user_config env (PyPath.to_str <$> config_file) default_config w
    = (Ok config_dict, w0)
    /\ generate_context env
         (cookiecutter_template_dir // PyPath.of_str "cookiecutter.json")
         (default_context config_dict)
         (filter (fun kv => is_engine_key kv.1 = false) extra) w0
       = (Ok base, w1)
    /\ prompt_for_config env base no_input w1 = (Ok answers, w')
    /\ context !! "cookiecutter" = Some (JObj variables)
    /\ (forall key, key <> "cookiecutter" -> context !! key = base !! key)
    /\ (forall key,
          variables !! key
          = match (if is_engine_key key then extra !! key else None) with
            | Some v => Some v
            | None => if decide (key = "_template")
                      then Some (JStr template_git_url)
                      else answers !! key
            end).
Proof.
  unfold generate_cookiecutter_context, bind.
  destruct (validate_outcome env cookiecutter_template_dir w) as [V|V];
    rewrite V; [|discriminate].
  destruct (get_user_config env _ default_config w) as [[cfg|e] w0] eqn:C;
    [|discriminate].
  unfold ret. cbv beta iota. intros H.
  pose proof H as H'.
  apply finish_context_inv in H'.
  destruct H' as (base & w1 & answers & w2 & G & P & ->).
  assert (w2 = w') as ->.
  { unfold finish_context, bind, lift in H.
    rewrite split_extra_context_dict, G, P in H. unfold ret in H.
    congruence. }
  eexists cfg, base, answers, _, w0, w1.
  split; [reflexivity|]. split; [exact G|]. split; [exact P|].
  split; [apply lookup_insert_eq|]. split.
  - intros key N. apply lookup_insert_ne. congruence.
  - intros key. rewrite lookup_union, (lookup_split true).
    destruct (is_engine_key key) eqn:E.
    + rewrite bool_decide_true by reflexivity.
      destruct (extra !! key) as [v|].
      * destruct (<["_template" := JStr template_git_url]> answers !! key);
          reflexivity.
      * rewrite (left_id None _).
        destruct (decide (key = "_template")) as [->|N].
        { apply lookup_insert_eq. }
        { apply lookup_insert_ne. congruence. }
    + rewrite bool_decide_false by discriminate.
      rewrite (left_id None _).
      destruct (decide (key = "_template")) as [->|N]; [discriminate E|].
      apply lookup_insert_ne. congruence.
Qed.

(** X12.  An extra context that is empty or false ([None], [{}], [[]], [0],
    the empty string) counts as no extra context at all. *)
Theorem falsy_extra_context_is_empty (template_git_url : string)
    (cookiecutter_template_dir : Path) (config_file : option Path)
    (default_config : bool) (extra_context : json) (no_input : bool)
    (w : world) :
  truthy extra_context = false ->
  generate_cookiecutter_context env template_git_url
    cookiecutter_template_dir config_file default_config extra_context
    no_input None w
  = generate_cookiecutter_context env template_git_url
      cookiecutter_template_dir config_file default_config (JObj ∅)
      no_input None w.
Proof.
  intros F. unfold generate_cookiecutter_context, bind.
  destruct (_validate_cookiecutter env cookiecutter_template_dir w)
    as [[[]|e] w0]; [|reflexivity].
  destruct (get_user_config env _ default_config w0) as [[cfg|e] w1];
    [|reflexivity].
  unfold ret. cbv beta iota. unfold finish_context, bind, lift.
  unfold split_extra_context. rewrite F. reflexivity.
Qed.

(** X13.  An extra context that is true and no mapping (a non-empty list, a
    number, a string) makes the assembly fail with [AttributeError] where
    its items are asked for, after the configuration was read and before
    anything is generated. *)
Theorem non_mapping_extra_context_fails (template_git_url : string)
    (cookiecutter_template_dir : Path) (config_file : option Path)
    (default_config : bool) (extra_context : json) (no_input : bool)
    (config_dict : Config) (w w1 : world) :
  _validate_cookiecutter env cookiecutter_template_dir w = (Ok tt, w) ->
  get_user_config env (PyPath.to_str <$> config_file) default_config w
  = (Ok config_dict, w1) ->
  truthy extra_context = true ->
  (forall d, extra_context <> JObj d) ->
  exists msg,
    generate_cookiecutter_context env template_git_url
      cookiecutter_template_dir config_file default_config extra_context
      no_input None w
    = (Raise (AttributeError msg), w1).
Proof.
  intros V C T N. unfold generate_cookiecutter_context, bind.
  rewrite V, C. unfold ret. cbv beta iota.
  unfold finish_context, bind, lift, split_extra_context. rewrite T.
  destruct extra_context; try (eexists; reflexivity).
  exfalso. exact (N _ eq_refl).
Qed.

End AssembledContext.


Lemma assembled_context_lookup_witness :
  exists context w' variables,
    Cookiecutter.generate_cookiecutter_context Examples.demo_env
      "https://example.com/template.git" Examples.clone_dir None false
      (JObj {["name" := JStr "x"; "_flag" := JStr "on"]}) true None
      Examples.cloned = (Ok context, w')
    /\ context !! "cookiecutter" = Some (JObj variables)
    /\ variables !! "_template" = Some (JStr "https://example.com/template.git")
    /\ variables !! "_flag" = Some (JStr "on").
Proof.
  destruct (Cookiecutter.generate_cookiecutter_context Examples.demo_env
      "https://example.com/template.git" Examples.clone_dir None false
      (JObj {["name" := JStr "x"; "_flag" := JStr "on"]}) true None
      Examples.cloned) as [[context|e] w'] eqn:H.
  - destruct (assembled_context_lookup Examples.demo_env _ _ _ _ _ _ _ _ _ H)
      as (cfg & base & answers & variables & w0 & w1 & _ & _ & _ & L & _ & K).
    exists context, w', variables.
    split; [reflexivity|]. split; [exact L|].
    split; rewrite K; vm_compute; reflexivity.
  - exfalso. vm_compute in H. discriminate H.
Defined.

Lemma falsy_extra_context_is_empty_witness :
  Cookiecutter.generate_cookiecutter_context Examples.demo_env
    "https://example.com/template.git" Examples.clone_dir None false
    (JArr []) true None Examples.cloned
  = Cookiecutter.generate_cookiecutter_context Examples.demo_env
      "https://example.com/template.git" Examples.clone_dir None false
      (JObj ∅) true None Examples.cloned.
Proof.
  apply (falsy_extra_context_is_empty Examples.demo_env
           "https://example.com/template.git" Examples.clone_dir None false
           (JArr []) true Examples.cloned).
  reflexivity.
Defined.

Lemma non_mapping_extra_context_fails_witness :
  exists msg,
    Cookiecutter.generate_cookiecutter_context Examples.demo_env
      "https://example.com/template.git" Examples.clone_dir None false
      (JArr [JStr "name"]) true None Examples.cloned
    = (Raise (AttributeError msg), Examples.cloned).
Proof.
  apply (non_mapping_extra_context_fails Examples.demo_env
           "https://example.com/template.git" Examples.clone_dir None false
           (JArr [JStr "name"]) true
           (mkConfig ∅ "/home/dev/.cookiecutter_replay")
           Examples.cloned Examples.cloned).
  - vm_compute. reflexivity.
  - reflexivity.
  - reflexivity.
  - intros d. discriminate.
Defined.

(** ** The extra-context file and the state file *)

Section CreateSteps.

Import Cookiecutter Create.

Context (env : Env).

(** X14.  An extra-context file that the path leads to is loaded as the
    document it holds, a mapping or not, and takes the place of the
    caller's extra context; without a file the caller's extra context
    stays. *)
Theorem extra_context_file_is_loaded (extra_context : json)
    (extra_context_file : Path) (j : json) (w : world) :
  lookup_path (cwd env) (fs w) extra_context_file = Some (File (Json j)) ->
  get_extra_context_from_file env extra_context_file w = (Ok j, w)
  /\ load_extra_context env extra_context (Some extra_context_file) w
     = (Ok j, w)
  /\ load_extra_context env extra_context None w = (Ok extra_context, w).
Proof.
  intros H.
  assert (E : get_extra_context_from_file env extra_context_file w = (Ok j, w)).
  { unfold get_extra_context_from_file, bind.
    rewrite (exists_found _ _ _ _ H). rewrite H. reflexivity. }
  split; [exact E|]. split; [exact E | reflexivity].
Qed.

(** X15.  When the renderer returns the project directory, this is a
    directory that can be reached and [.cruft.json] in it is no
    directory, lines 59-86 return the project directory as a path, write
    [.cruft.json] into it and report the directory on standard output.
    The state holds the template, the commit, the checkout, the context
    and the directory, and [skip] exactly when a non-empty list was given;
    it holds no other key. *)
Theorem state_file_is_written (template_git_url last_commit : string)
    (checkout : option string) (cookiecutter_template_dir : Path)
    (context : dict) (overwrite_if_exists : bool) (output_dir : Path)
    (directory : option string) (skip : option (list string))
    (project_dir : string) (k : list string) (w w1 : world) :
  generate_files env cookiecutter_template_dir context overwrite_if_exists
    (PyPath.to_str output_dir) w = (Ok project_dir, w1) ->
  resolve (cwd env) (fs w1)
    (PyPath.of_str project_dir // PyPath.of_str ".cruft.json") = Some k ->
  is_dir (fs w1) (removelast k) = true ->
  is_dir (fs w1) k = false ->
  exists (state : dict) w',
    render_and_record env template_git_url last_commit checkout
      cookiecutter_template_dir context overwrite_if_exists output_dir
      directory skip w
    = (Ok (PyPath.of_str project_dir), w')
    /\ fs w' = <[k := File (Json (JObj state))]> (fs w1)
    /\ stdout w'
       = (stdout w1
          ++ ["Created project in "
              +:+ PyPath.to_str (PyPath.of_str project_dir)])%list
    /\ state !! "template" = Some (JStr template_git_url)
    /\ state !! "commit" = Some (JStr last_commit)
    /\ state !! "checkout" = Some (json_of_opt checkout)
    /\ state !! "context" = Some (JObj context)
    /\ state !! "directory" = Some (json_of_opt directory)
    /\ state !! "skip"
       = match skip with
         | Some (p :: ps) => Some (JArr (JStr <$> p :: ps))
         | _ => None
         end
    /\ forall key, is_Some (state !! key) ->
         key ∈ ["template"; "commit"; "checkout"; "context"; "directory";
                "skip"].
Proof.
  intros G R Hparent Htarget.
  unfold render_and_record, try_except, bind. rewrite G.
  unfold write_text. rewrite R, Hparent, Htarget.
  unfold echo, ret, json_dumps. cbv beta iota. cbn [negb fs stdout].
  eexists _, _. split; [reflexivity|].
  split; [reflexivity|]. split; [reflexivity|].
  destruct skip as [[|p ps]|]; cbn [truthy_list default];
    (repeat split; [vm_compute; reflexivity ..|]);
    intros key [v L];
    repeat (apply lookup_insert_Some in L;
            destruct L as [[<- _]|[_ L]]; [set_solver|]);
    rewrite lookup_empty in L; discriminate L.
Qed.

(** X16.  The exceptions of lines 59-86.  No [CookiecutterException]
    leaves them.  What the renderer raises is raised in the world the
    renderer left, a [CookiecutterException] as a [CruftError] and every
    other exception unchanged.  When the renderer returned and
    [.cruft.json] in the project directory is a directory, or the project
    directory is none, writing the state fails with an [OSError], which is
    raised as it is, in the world the renderer left.  In these cases
    nothing is written and nothing reported. *)
Theorem renderer_exception_never_leaves (template_git_url last_commit : string)
    (checkout : option string) (cookiecutter_template_dir : Path)
    (context : dict) (overwrite_if_exists : bool) (output_dir : Path)
    (directory : option string) (skip : option (list string)) (w : world) :
  (forall e w',
     render_and_record env template_git_url last_commit checkout
       cookiecutter_template_dir context overwrite_if_exists output_dir
       directory skip w
     = (Raise e, w') ->
     forall msg, e <> CookiecutterException msg)
  /\ (forall e0 w',
        generate_files env cookiecutter_template_dir context
          overwrite_if_exists (PyPath.to_str output_dir) w = (Raise e0, w') ->
        render_and_record env template_git_url last_commit checkout
          cookiecutter_template_dir context overwrite_if_exists output_dir
          directory skip w
        = (Raise match e0 with
                 | CookiecutterException msg =>
                     CruftError (PyStr.replace msg "Error: " "")
                 | _ => e0
                 end, w'))
  /\ (forall project_dir k w',
        generate_files env cookiecutter_template_dir context
          overwrite_if_exists (PyPath.to_str output_dir) w
        = (Ok project_dir, w') ->
        resolve (cwd env) (fs w')
          (PyPath.of_str project_dir // PyPath.of_str ".cruft.json") = Some k ->
        is_dir (fs w') (removelast k) = false \/ is_dir (fs w') k = true ->
        exists msg,
          render_and_record env template_git_url last_commit checkout
            cookiecutter_template_dir context overwrite_if_exists output_dir
            directory skip w
          = (Raise (OSError msg), w')).
Proof.
  split; [|split].
  - intros e w'. unfold render_and_record, try_except, bind.
    destruct (generate_files env _ _ _ _ w) as [[p|e0] w1].
    + unfold write_text.
      destruct (resolve (cwd env) (fs w1) _) as [k|].
      * destruct (is_dir (fs w1) (removelast k)); cbn [negb].
        { destruct (is_dir (fs w1) k).
          - intros H msg0. inversion H; subst. discriminate.
          - unfold echo, ret. cbv beta iota. discriminate. }
        { intros H msg0. inversion H; subst. discriminate. }
      * intros H msg0. inversion H; subst. discriminate.
    + destruct e0; unfold raise; intros H msg0; inversion H; subst;
        discriminate.
  - intros e0 w' G. unfold render_and_record, try_except, bind. rewrite G.
    destruct e0; reflexivity.
  - intros p k w' G R D. unfold render_and_record, try_except, bind.
    rewrite G. unfold write_text. rewrite R.
    destruct (is_dir (fs w') (removelast k)); cbn [negb].
    + destruct D as [D|D]; [discriminate D|]. rewrite D.
      eexists. reflexivity.
    + eexists. reflexivity.
Qed.

End CreateSteps.

Lemma extra_context_file_is_loaded_witness :
  Create.load_extra_context Examples.demo_env (JObj {["name" := JStr "x"]})
    (Some (PyPath.of_str "extra.json")) Examples.with_extra_file
  = (Ok (JObj {["name" := JStr "from file"; "ratio" := JFloat 1.5%float]}),
     Examples.with_extra_file).
Proof.
  apply (extra_context_file_is_loaded Examples.demo_env
           (JObj {["name" := JStr "x"]}) (PyPath.of_str "extra.json")
           (JObj {["name" := JStr "from file"; "ratio" := JFloat 1.5%float]})
           Examples.with_extra_file).
  vm_compute. reflexivity.
Defined.

Lemma state_file_is_written_witness :
  exists (state : dict) w',
    Create.render_and_record Examples.demo_env
      "https://example.com/template.git" "4f2a9c1" (Some "v1.2.0")
      Examples.clone_dir ∅ false (PyPath.of_str "out") None (Some [])
      Examples.cloned
    = (Ok (PyPath.of_str "out/demo"), w')
    /\ fs w' !! ["home"; "dev"; "out"; "demo"; ".cruft.json"]
       = Some (File (Json (JObj state)))
    /\ state !! "checkout" = Some (JStr "v1.2.0")
    /\ state !! "directory" = Some JNull
    /\ state !! "skip" = None.
Proof.
  destruct (state_file_is_written Examples.demo_env
              "https://example.com/template.git" "4f2a9c1" (Some "v1.2.0")
              Examples.clone_dir ∅ false (PyPath.of_str "out") None (Some [])
              "out/demo" ["home"; "dev"; "out"; "demo"; ".cruft.json"]
              Examples.cloned _ eq_refl)
    as (state & w' & R & F & _ & _ & _ & C & _ & D & S & _);
    [vm_compute; reflexivity ..|].
  exists state, w'. split; [exact R|].
  split; [rewrite F; apply lookup_insert_eq|].
  repeat split; assumption.
Defined.

Lemma renderer_exception_never_leaves_witness :
  (exists msg w',
     Create.render_and_record Examples.demo_env
       "https://example.com/template.git" "4f2a9c1" None Examples.clone_dir
       ∅ false (PyPath.of_str "out") None None Examples.blocked
     = (Raise (OSError msg), w'))
  /\ Create.render_and_record
       (Examples.failing_renderer "Error: unknown variable")
       "https://example.com/template.git" "4f2a9c1" None Examples.clone_dir
       ∅ false (PyPath.of_str "out") None None Examples.cloned
     = (Raise (CruftError "unknown variable"), Examples.cloned).
Proof.
  split.
  - destruct (proj2 (proj2 (renderer_exception_never_leaves Examples.demo_env
                "https://example.com/template.git" "4f2a9c1" None
                Examples.clone_dir ∅ false (PyPath.of_str "out") None None
                Examples.blocked))
              "out/demo" ["home"; "dev"; "out"; "demo"; ".cruft.json"] _
              eq_refl) as [msg H].
    + vm_compute. reflexivity.
    + right. vm_compute. reflexivity.
    + eexists msg, _. exact H.
  - apply (proj1 (proj2 (renderer_exception_never_leaves
                           (Examples.failing_renderer "Error: unknown variable")
                           "https://example.com/template.git" "4f2a9c1" None
                           Examples.clone_dir ∅ false (PyPath.of_str "out")
                           None None Examples.cloned))
                 (CookiecutterException "Error: unknown variable")).
    reflexivity.
Defined.
